(** * reuse.global_licensing: REUSE.toml and .reuse/dep5 declaration documents

    A shallow embedding of [src/reuse/global_licensing.py].  The Python
    values the module handles are dynamically typed, so they are embedded
    as one inductive type [pyval]; exceptions are values of a result type
    and [raise]/[try ... except] become explicit matches.

    The third-party libraries the module calls (license_expression,
    python-debian, tomlkit) and the file system are not part of the module:
    they are the fields of the classes [ExprLib] and [Environment]. *)

From Stdlib Require Import List String Ascii NArith ZArith Bool Lia.
Import ListNotations.

Set Implicit Arguments.
Set Warnings "-register-all".

(** ** The Python runtime the module relies on *)

Module Py.

(** A [str] is a sequence of Unicode code points. *)
Definition str := list N.

(** An ASCII literal as a [str]. *)
Definition py (s : string) : str := map N_of_ascii (list_ascii_of_string s).

Fixpoint str_eqb (a b : str) : bool :=
  match a, b with
  | [], [] => true
  | x :: a', y :: b' => N.eqb x y && str_eqb a' b'
  | _, _ => false
  end.

Definition in_range (lo hi b : N) : bool := (lo <=? b)%N && (b <=? hi)%N.

(** A continuation byte of UTF-8, 10xxxxxx. *)
Definition cont (b : N) : bool := in_range 128 191 b.

(** [bytes.decode("utf-8")] with [errors="strict"]: the well-formed byte
    sequences of RFC 3629 (no overlong forms, no surrogates, nothing above
    U+10FFFF); [None] stands for [UnicodeDecodeError]. *)
Fixpoint utf8_decode (bs : list N) : option str :=
  match bs with
  | [] => Some []
  | b0 :: r0 =>
    if (b0 <? 128)%N then option_map (cons b0) (utf8_decode r0)
    else if in_range 194 223 b0 then
      match r0 with
      | b1 :: r1 =>
        if cont b1
        then option_map (cons ((b0 - 192) * 64 + (b1 - 128))%N) (utf8_decode r1)
        else None
      | _ => None
      end
    else if in_range 224 239 b0 then
      match r0 with
      | b1 :: b2 :: r2 =>
        if in_range (if (b0 =? 224)%N then 160 else 128)
                    (if (b0 =? 237)%N then 159 else 191) b1 && cont b2
        then option_map
               (cons ((b0 - 224) * 4096 + (b1 - 128) * 64 + (b2 - 128))%N)
               (utf8_decode r2)
        else None
      | _ => None
      end
    else if in_range 240 244 b0 then
      match r0 with
      | b1 :: b2 :: b3 :: r3 =>
        if in_range (if (b0 =? 240)%N then 144 else 128)
                    (if (b0 =? 244)%N then 143 else 191) b1
           && cont b2 && cont b3
        then option_map
               (cons ((b0 - 240) * 262144 + (b1 - 128) * 4096
                      + (b2 - 128) * 64 + (b3 - 128))%N)
               (utf8_decode r3)
        else None
      | _ => None
      end
    else None
  end.

(** Universal newlines of a text stream opened with [newline=None]:
    CR LF and a lone CR are read as LF. *)
Fixpoint translate_newlines (s : str) : str :=
  match s with
  | [] => []
  | c :: r =>
    if (c =? 13)%N then
      match r with
      | c' :: r' =>
        if (c' =? 10)%N then 10%N :: translate_newlines r'
        else 10%N :: translate_newlines r
      | [] => [10%N]
      end
    else c :: translate_newlines r
  end.

(** What reading a whole text stream opened with [encoding="utf-8"]
    returns. *)
Definition read_text (raw : list Byte.byte) : option str :=
  option_map translate_newlines (utf8_decode (map Byte.to_N raw)).

(** The longest prefix of [bs] that is well-formed UTF-8, decoded, and the
    bytes left after it: none when [bs] decodes. *)
Fixpoint utf8_decode_upto (bs : list N) : str * list N :=
  let go (c : N) (p : str * list N) := (c :: fst p, snd p) in
  match bs with
  | [] => ([], [])
  | b0 :: r0 =>
    if (b0 <? 128)%N then go b0 (utf8_decode_upto r0)
    else if in_range 194 223 b0 then
      match r0 with
      | b1 :: r1 =>
        if cont b1
        then go ((b0 - 192) * 64 + (b1 - 128))%N (utf8_decode_upto r1)
        else ([], bs)
      | _ => ([], bs)
      end
    else if in_range 224 239 b0 then
      match r0 with
      | b1 :: b2 :: r2 =>
        if in_range (if (b0 =? 224)%N then 160 else 128)
                    (if (b0 =? 237)%N then 159 else 191) b1 && cont b2
        then go ((b0 - 224) * 4096 + (b1 - 128) * 64 + (b2 - 128))%N
                (utf8_decode_upto r2)
        else ([], bs)
      | _ => ([], bs)
      end
    else if in_range 240 244 b0 then
      match r0 with
      | b1 :: b2 :: b3 :: r3 =>
        if in_range (if (b0 =? 240)%N then 144 else 128)
                    (if (b0 =? 244)%N then 143 else 191) b1
           && cont b2 && cont b3
        then go ((b0 - 240) * 262144 + (b1 - 128) * 4096
                 + (b2 - 128) * 64 + (b3 - 128))%N
                (utf8_decode_upto r3)
        else ([], bs)
      | _ => ([], bs)
      end
    else ([], bs)
  end.

(** The lines of a text as a stream hands them out, each with its "\n";
    [cur] is the line being read, reversed.  With [whole], the rest of a
    text that does not end with "\n" is the last line; without, it is
    left out. *)
Fixpoint lines_from (whole : bool) (cur : str) (s : str) : list str :=
  match s with
  | [] => match cur with
          | [] => []
          | _ => if whole then [rev cur] else []
          end
  | c :: r =>
    if (c =? 10)%N then rev (c :: cur) :: lines_from whole [] r
    else lines_from whole (c :: cur) r
  end.

(** What iterating over a text stream yields. *)
Definition readlines (text : str) : list str := lines_from true [] text.

(** The lines of [text] that are ended by "\n". *)
Definition complete_lines (text : str) : list str := lines_from false [] text.

(** [str.isspace] on one code point. *)
Definition is_space (c : N) : bool :=
  in_range 9 13 c || in_range 28 32 c || (c =? 133)%N || (c =? 160)%N
  || (c =? 5760)%N || in_range 8192 8202 c || in_range 8232 8233 c
  || (c =? 8239)%N || (c =? 8287)%N || (c =? 12288)%N.

Fixpoint lstrip (s : str) : str :=
  match s with
  | [] => []
  | c :: r => if is_space c then lstrip r else s
  end.

(** [str.strip()] without argument. *)
Definition strip (s : str) : str := rev (lstrip (rev (lstrip s))).

(** Neither the first nor the last character of [s] is white space. *)
Definition stripped (s : str) : Prop :=
  lstrip s = s /\ lstrip (rev s) = rev s.

(** The line boundaries of [str.splitlines], CR LF apart. *)
Definition is_linebreak (c : N) : bool :=
  in_range 10 13 c || in_range 28 30 c || (c =? 133)%N
  || in_range 8232 8233 c.

(** [cur] is the line being read, reversed. *)
Fixpoint splitlines_from (cur : str) (s : str) : list str :=
  match s with
  | [] => match cur with [] => [] | _ => [rev cur] end
  | c :: r =>
    if (c =? 13)%N then
      match r with
      | c' :: r' =>
        if (c' =? 10)%N then rev cur :: splitlines_from [] r'
        else rev cur :: splitlines_from [] r
      | [] => [rev cur]
      end
    else if is_linebreak c then rev cur :: splitlines_from [] r
    else splitlines_from (c :: cur) r
  end.

(** [str.splitlines()] with [keepends=False]. *)
Definition splitlines (s : str) : list str := splitlines_from [] s.

(** [s.split(sep)] for a one-character [sep]; [cur] is the part being
    read, reversed. *)
Fixpoint split_on (sep : N) (cur : str) (s : str) : list str :=
  match s with
  | [] => [rev cur]
  | c :: r =>
    if (c =? sep)%N then rev cur :: split_on sep [] r
    else split_on sep (c :: cur) r
  end.

Definition split_slash (s : str) : list str := split_on 47 [] s.

(** [s] is free of "/". *)
Definition no_slash (s : str) : Prop := forall c, In c s -> c <> 47%N.

Fixpoint join_slash (parts : list str) : str :=
  match parts with
  | [] => []
  | [p] => p
  | p :: ps => p ++ 47%N :: join_slash ps
  end.

Fixpoint leading_slashes (s : str) : nat :=
  match s with
  | c :: r => if (c =? 47)%N then S (leading_slashes r) else 0
  | [] => 0
  end.

(** [PurePath(path).as_posix()] on a POSIX platform, where [PurePath] is
    [PurePosixPath]: empty and "." components are dropped, exactly two
    leading slashes are kept, and the empty path is ".". *)
Definition as_posix (path : str) : str :=
  let root :=
    match leading_slashes path with
    | 0 => []
    | 2 => [47%N; 47%N]
    | _ => [47%N]
    end in
  let parts :=
    filter (fun x => negb (str_eqb x []) && negb (str_eqb x [46%N]))
           (split_slash path) in
  match root ++ join_slash parts with
  | [] => [46%N]
  | p => p
  end.

End Py.
Import Py.

(** ** Values, exceptions and results *)

(** [boolean.boolean.Expression], the type of parsed license expressions.
    The library is outside the module; its values are taken up to its
    [__eq__], which is how a set tells them apart. *)
Class ExprLib := {
  Expression : Type;
  Expression_eq_dec : forall a b : Expression, {a = b} + {a <> b}
}.

(** The values the module handles: what a TOML document decodes to
    (floats, dates and times apart: the module treats them as it treats
    [None], as scalars that are neither a string nor an iterable), the sets
    the converters build and the expressions the license parser returns.
    A dict and a set keep their insertion order; no statement below depends
    on the order in which a set is iterated. *)
Inductive pyval `{ExprLib} : Type :=
| PNone
| PBool (b : bool)
| PInt (z : Z)
| PStr (s : str)
| PList (l : list pyval)
| PDict (d : list (str * pyval))
| PSet (s : list pyval)
| PExpr (e : Expression).

Definition dict `{ExprLib} := list (str * pyval).

(** The classes [isinstance] is asked about. *)
Inductive pytype :=
| T_NoneType | T_bool | T_int | T_str | T_list | T_dict | T_set
| T_Expression.

Definition type_of `{ExprLib} (v : pyval) : pytype :=
  match v with
  | PNone => T_NoneType
  | PBool _ => T_bool
  | PInt _ => T_int
  | PStr _ => T_str
  | PList _ => T_list
  | PDict _ => T_dict
  | PSet _ => T_set
  | PExpr _ => T_Expression
  end.

Definition pytype_eqb (a b : pytype) : bool :=
  match a, b with
  | T_NoneType, T_NoneType | T_bool, T_bool | T_int, T_int | T_str, T_str
  | T_list, T_list | T_dict, T_dict | T_set, T_set
  | T_Expression, T_Expression => true
  | _, _ => false
  end.

(** [bool] is a subclass of [int]. *)
Definition isinstance `{ExprLib} (v : pyval) (t : pytype) : bool :=
  pytype_eqb (type_of v) t
  || (pytype_eqb (type_of v) T_bool && pytype_eqb t T_int).

(** [type.__name__]. *)
Definition type_name (t : pytype) : str :=
  match t with
  | T_NoneType => py "NoneType"
  | T_bool => py "bool"
  | T_int => py "int"
  | T_str => py "str"
  | T_list => py "list"
  | T_dict => py "dict"
  | T_set => py "set"
  | T_Expression => py "Expression"
  end.

(** The exception classes that can cross the module. *)
Inductive exc_class :=
| Exception
| TypeError
| ValueError
| UnicodeError
| UnicodeDecodeError
| AttributeError
| RuntimeError
| NotImplementedError
| OSError
| FileNotFoundError
| GlobalLicensingParseError   (* defined by the module, line 26 *)
| DebianError                 (* debian.copyright.Error *)
| ExpressionError             (* license_expression.ExpressionError *)
| ParseError                  (* boolean.boolean.ParseError *)
| TOMLKitError.               (* tomlkit.exceptions.TOMLKitError *)

Definition exc_class_eqb (a b : exc_class) : bool :=
  match a, b with
  | Exception, Exception | TypeError, TypeError | ValueError, ValueError
  | UnicodeError, UnicodeError
  | UnicodeDecodeError, UnicodeDecodeError | AttributeError, AttributeError
  | RuntimeError, RuntimeError | NotImplementedError, NotImplementedError
  | OSError, OSError | FileNotFoundError, FileNotFoundError
  | GlobalLicensingParseError, GlobalLicensingParseError
  | DebianError, DebianError | ExpressionError, ExpressionError
  | ParseError, ParseError | TOMLKitError, TOMLKitError => true
  | _, _ => false
  end.

(** The direct base class; [None] for [Exception], the root here.
    [GlobalLicensingParseError] derives from [Exception] and from nothing
    else; [UnicodeDecodeError] is a [ValueError]. *)
Definition base (c : exc_class) : option exc_class :=
  match c with
  | Exception => None
  | UnicodeDecodeError => Some UnicodeError
  | UnicodeError => Some ValueError
  | NotImplementedError => Some RuntimeError
  | FileNotFoundError => Some OSError
  | _ => Some Exception
  end.

Fixpoint issubclass_fuel (n : nat) (c d : exc_class) : bool :=
  exc_class_eqb c d ||
  match n with
  | O => false
  | S n' => match base c with
            | Some b => issubclass_fuel n' b d
            | None => false
            end
  end.

(** The hierarchy is three levels deep. *)
Definition issubclass (c d : exc_class) : bool := issubclass_fuel 3 c d.

(** What an exception is constructed with. *)
Inductive exc_arg `{ExprLib} :=
| AMsg (msg : str)
| AAttribute (name : str)      (* an [attrs.Attribute], by its name *)
| AType (t : pytype)
| AValue (v : pyval).

Record exn `{ExprLib} := Exn {
  exc_type : exc_class;
  exc_args : list exc_arg
}.

(** [except c:] catches [e]. *)
Definition catches `{ExprLib} (c : exc_class) (e : exn) : bool :=
  issubclass (exc_type e) c.

Inductive result `{ExprLib} (A : Type) : Type :=
| Ok (a : A)
| Raise (e : exn).

Arguments Ok {_ A} a.
Arguments Raise {_ A} e.

Definition bind `{ExprLib} {A B} (r : result A) (k : A -> result B)
  : result B :=
  match r with
  | Ok a => k a
  | Raise e => Raise e
  end.

Notation "x <- r ;; k" := (bind r (fun x => k))
  (at level 61, r at next level, right associativity).

(** A loop or comprehension whose body may raise: left to right, stopping
    at the first exception. *)
Fixpoint mapM `{ExprLib} {A B} (f : A -> result B) (l : list A)
  : result (list B) :=
  match l with
  | [] => Ok []
  | a :: l' => b <- f a ;; bs <- mapM f l' ;; Ok (b :: bs)
  end.

(** ** Sets and dicts *)

(** [hash(v)] does not raise. *)
Definition hashable `{ExprLib} (v : pyval) : bool :=
  match v with
  | PList _ | PDict _ | PSet _ => false
  | _ => true
  end.

(** [a == b] on hashable values: [True == 1] and [False == 0]; a value of
    one of the other kinds equals only a value of its own kind.  (On the
    unhashable kinds it is [false]; the module compares them only with a
    string, which they never equal.) *)
Definition py_eqb `{ExprLib} (a b : pyval) : bool :=
  match a, b with
  | PNone, PNone => true
  | PBool x, PBool y => Bool.eqb x y
  | PBool x, PInt z | PInt z, PBool x => Z.eqb (Z.b2z x) z
  | PInt x, PInt y => Z.eqb x y
  | PStr s, PStr t => str_eqb s t
  | PExpr e, PExpr f => if Expression_eq_dec e f then true else false
  | _, _ => false
  end.

(** [v in s]. *)
Definition set_mem `{ExprLib} (v : pyval) (s : list pyval) : bool :=
  existsb (py_eqb v) s.

(** [s.add(v)]: an element equal to one already there is not added;
    [TypeError] for an unhashable one. *)
Definition set_add `{ExprLib} (s : list pyval) (v : pyval)
  : result (list pyval) :=
  if hashable v then Ok (if set_mem v s then s else s ++ [v])
  else Raise (Exn TypeError
                  [AMsg (py "unhashable type: '" ++ type_name (type_of v)
                         ++ py "'")]).

Fixpoint set_update `{ExprLib} (s : list pyval) (l : list pyval)
  : result (list pyval) :=
  match l with
  | [] => Ok s
  | v :: l' => s' <- set_add s v ;; set_update s' l'
  end.

(** [set(iterable)] on the elements the iterable yields. *)
Definition set_of `{ExprLib} (l : list pyval) : result (list pyval) :=
  set_update [] l.

(** No two elements of [s] are equal: what makes a list of elements a
    set. *)
Definition distinct `{ExprLib} (s : list pyval) : Prop :=
  ForallOrdPairs (fun a b => py_eqb a b = false) s.

(** [hasattr(v, "__iter__")]. *)
Definition has_iter `{ExprLib} (v : pyval) : bool :=
  match v with
  | PStr _ | PList _ | PDict _ | PSet _ => true
  | _ => false
  end.

(** The elements [iter(v)] yields: the characters of a string, the keys of
    a dict; [TypeError] when [v] is not iterable. *)
Definition iterate `{ExprLib} (v : pyval) : result (list pyval) :=
  match v with
  | PStr s => Ok (map (fun c => PStr [c]) s)
  | PList l => Ok l
  | PDict d => Ok (map (fun kv => PStr (fst kv)) d)
  | PSet s => Ok s
  | _ => Raise (Exn TypeError
                    [AMsg (py "'" ++ type_name (type_of v)
                           ++ py "' object is not iterable")])
  end.

Fixpoint dict_lookup `{ExprLib} (k : str) (d : dict) : option pyval :=
  match d with
  | [] => None
  | (k', v) :: d' => if str_eqb k k' then Some v else dict_lookup k d'
  end.

(** [d.get(k, default)]; [d.get(k)] is [dict_get k PNone d]. *)
Definition dict_get `{ExprLib} (k : str) (default : pyval) (d : dict)
  : pyval :=
  match dict_lookup k d with
  | Some v => v
  | None => default
  end.

(** ** What the module imports *)

(** Modelled from the spec: [reuse.SourceType], declared in the package's
    [__init__] and absent from the sources at hand; the spec names the
    three mechanisms that can produce a [ReuseInfo]. *)
Inductive SourceType := DEP5 | REUSE_TOML | FILE_HEADER.

Module ReuseInfo.

(** Modelled from the spec: [reuse.ReuseInfo], declared in the package's
    [__init__]: a set of license expressions, a set of copyright lines,
    the path, the mechanism and the declaring file.  A set is given by its
    elements. *)
Record t `{ExprLib} := make {
  spdx_expressions : list pyval;
  copyright_lines : list pyval;
  path : option str;
  source_type : option SourceType;
  source_path : option str
}.

(** [ReuseInfo()]. *)
Definition empty `{ExprLib} : t := make [] [] None None None.

End ReuseInfo.

Module Debian.

(** [debian.copyright.License]. *)
Record License := { synopsis : str; text : str }.

(** [debian.copyright.FilesParagraph], with the two fields the module
    reads. *)
Record FilesParagraph := { license : License; copyright : str }.

(** [debian.copyright.Copyright], with the one method the module calls. *)
Record Copyright := {
  find_files_paragraph : str -> option FilesParagraph
}.

End Debian.

(** A library function that is given a text stream and asks it for one
    line after the other: what it does after each line, go on from a new
    state or finish with a result without asking for more, and what it
    does when the stream has no more line.  An exception of the stream is
    not its to handle. *)
Record line_reader `{ExprLib} (A : Type) := {
  reader_state : Type;
  reader_start : reader_state;
  reader_line : reader_state -> str -> reader_state + result A;
  reader_end : reader_state -> result A
}.

(** The reader on a stream that hands out [lines] and then ends, or then
    raises [failure]; the lines the reader does not ask for are never
    read. *)
Fixpoint read_lines `{ExprLib} {A} (r : line_reader A) (s : reader_state r)
  (lines : list str) (failure : option exn) : result A :=
  match lines with
  | [] => match failure with
          | Some e => Raise e
          | None => reader_end r s
          end
  | line :: rest =>
    match reader_line r s line with
    | inl s' => read_lines r s' rest failure
    | inr x => x
    end
  end.

(** The builtins, libraries and files around the module. *)
Class Environment `{ExprLib} := {
  (** [repr(v)] *)
  repr : pyval -> str;
  (** [repr(v.__class__)] *)
  class_repr : pyval -> str;
  (** [str(error)] *)
  exn_str : exn -> str;
  (** [_LICENSING.parse] *)
  licensing_parse : pyval -> result pyval;
  (** [Copyright(fp)], by what it does with the lines of [fp] *)
  Copyright_new : line_reader Debian.Copyright;
  (** how many lines a text stream over these bytes, which are not UTF-8,
      hands out before the read that decodes the first undecodable byte:
      the stream decodes a block at a time (of 8192 bytes in CPython) *)
  readahead : list Byte.byte -> nat;
  (** [tomlkit.loads] *)
  tomlkit_loads : str -> result dict;
  (** [Path.open]: the bytes of the file, or the [OSError] *)
  path_open : str -> result (list Byte.byte)
}.

(** The [UnicodeDecodeError] of the utf-8 codec (its arguments are the
    codec, the bytes, the position and the reason; the codec name is
    kept). *)
Definition unicode_decode_error `{ExprLib} : exn :=
  Exn UnicodeDecodeError [AMsg (py "utf-8")].

(** Reading all of a text stream. *)
Definition fp_read `{ExprLib} (raw : list Byte.byte) : result str :=
  match read_text raw with
  | Some text => Ok text
  | None => Raise unicode_decode_error
  end.

(** The text stream [path.open(encoding="utf-8")] returns, by the lines
    it hands out and the exception it raises after them, if any.  Over
    bytes that decode, these are the lines of the text.  Over bytes that do
    not, they are the first [ahead] lines ended within the prefix that
    decodes, and the next read raises [UnicodeDecodeError]. *)
Definition text_stream `{ExprLib} (ahead : nat) (raw : list Byte.byte)
  : list str * option exn :=
  match read_text raw with
  | Some text => (readlines text, None)
  | None =>
    (firstn ahead
            (complete_lines
               (translate_newlines
                  (fst (utf8_decode_upto (map Byte.to_N raw))))),
     Some unicode_decode_error)
  end.

(** [repr] of a class object, [<class 'int'>]. *)
Definition pytype_repr (t : pytype) : str :=
  py "<class '" ++ type_name t ++ py "'>".

(** [attrs.validators.instance_of(t)]. *)
Definition instance_of `{Environment} (t : pytype) (attribute : str)
  (value : pyval) : result unit :=
  if isinstance value t then Ok tt
  else Raise (Exn TypeError
                  [AMsg (py "'" ++ attribute ++ py "' must be "
                         ++ pytype_repr t ++ py " (got " ++ repr value
                         ++ py " that is a " ++ class_repr value ++ py ").");
                   AAttribute attribute; AType t; AValue value]).

(** ** global_licensing.py, lines 100-177: validators and converters *)

Fixpoint check_items `{Environment} (attribute : str) (type_ : pytype)
  (items : list pyval) : result unit :=
  match items with
  | [] => Ok tt
  | item :: items' =>
    if negb (isinstance item type_) then
      Raise (Exn TypeError
                 [AMsg (py "Item in '" ++ attribute
                        ++ py "' collection must be a " ++ type_name type_
                        ++ py " (got " ++ repr item ++ py " that is a "
                        ++ class_repr item ++ py ")");
                  AAttribute attribute; AType type_; AValue item])
    else check_items attribute type_ items'
  end.

Definition _validate_collection_of_type `{Environment} (attribute : str)
  (value : pyval) (iterable_type type_ : pytype) : result unit :=
  if negb (isinstance value iterable_type) then
    Raise (Exn TypeError
               [AMsg (py "'" ++ attribute ++ py "' must be a "
                      ++ type_name iterable_type ++ py " (got " ++ repr value
                      ++ py " that is a " ++ class_repr value ++ py ").");
                AAttribute attribute; AType T_set; AValue value])
  else
    items <- iterate value ;;
    check_items attribute type_ items.

Definition _validate_set_of_str `{Environment} (attribute : str)
  (value : pyval) : result unit :=
  _validate_collection_of_type attribute value T_set T_str.

Definition _validate_set_of_expr `{Environment} (attribute : str)
  (value : pyval) : result unit :=
  _validate_collection_of_type attribute value T_set T_Expression.

(** [attribute.type.__args__] of [Literal["aggregate", "file", "toml"]]. *)
Definition precedence_args `{ExprLib} : list pyval :=
  [PStr (py "aggregate"); PStr (py "file"); PStr (py "toml")].

(** Only the first half of the message is an f-string in the source: the
    braces of the second half are raised as they are written. *)
Definition _validate_literal `{Environment} (attribute : str)
  (args : list pyval) (value : pyval) : result unit :=
  if negb (set_mem value args) then
    Raise (Exn ValueError
               [AMsg (py "The value of '" ++ attribute
                      ++ py "' must be one of"
                      ++ py " {attribute.type.__args__!r} (got {value!r})")])
  else Ok tt.

Definition _str_to_set `{ExprLib} (value : pyval) : result pyval :=
  if isinstance value T_str then
    s <- set_of [value] ;; Ok (PSet s)
  else if has_iter value then
    items <- iterate value ;; s <- set_of items ;; Ok (PSet s)
  else
    s <- set_of [value] ;; Ok (PSet s).

(** The loop of [_str_to_set_of_expr], from the set built so far.  The
    [except (ExpressionError, ParseError)] clause logs and re-raises, so
    every exception of the body leaves the loop unchanged. *)
Fixpoint parse_each `{Environment} (acc : list pyval)
  (expressions : list pyval) : result (list pyval) :=
  match expressions with
  | [] => Ok acc
  | expression :: rest =>
    e <- licensing_parse expression ;;
    acc' <- set_add acc e ;;
    parse_each acc' rest
  end.

Definition _str_to_set_of_expr `{Environment} (value : pyval)
  : result pyval :=
  value' <- _str_to_set value ;;
  expressions <- iterate value' ;;
  r <- parse_each [] expressions ;;
  Ok (PSet r).

(** ** global_licensing.py, lines 180-209: AnnotationsItem *)

Module AnnotationsItem.

Record t `{ExprLib} := make {
  paths : pyval;
  precedence : pyval;
  copyright_lines : pyval;
  spdx_expressions : pyval
}.

(** The [__init__] that [attrs.define] generates: the converters run as
    the attributes are assigned, in the order of the fields; the validators
    run afterwards, in the same order. *)
Definition init `{Environment}
  (paths precedence copyright_lines spdx_expressions : pyval) : result t :=
  paths' <- _str_to_set paths ;;
  copyright_lines' <- _str_to_set copyright_lines ;;
  spdx_expressions' <- _str_to_set_of_expr spdx_expressions ;;
  _ <- _validate_set_of_str (py "paths") paths' ;;
  _ <- _validate_literal (py "precedence") precedence_args precedence ;;
  _ <- _validate_set_of_str (py "copyright_lines") copyright_lines' ;;
  _ <- _validate_set_of_expr (py "spdx_expressions") spdx_expressions' ;;
  Ok (make paths' precedence copyright_lines' spdx_expressions').

Definition from_dict `{Environment} (values : dict) : result t :=
  init (dict_get (py "path") PNone values)
       (dict_get (py "precedence") PNone values)
       (dict_get (py "SPDX-FileCopyrightText") PNone values)
       (dict_get (py "SPDX-License-Identifier") PNone values).

(** The keys [from_dict] passes to [values.get]. *)
Definition keys_read : list str :=
  [py "path"; py "precedence"; py "SPDX-FileCopyrightText";
   py "SPDX-License-Identifier"].

(** [AnnotationsItem.from_dict(annotation)] on whatever the [annotations]
    value yields: only a dict has a [get]. *)
Definition from_dict_call `{Environment} (annotation : pyval) : result t :=
  match annotation with
  | PDict values => from_dict values
  | v => Raise (Exn AttributeError
                    [AMsg (py "'" ++ type_name (type_of v)
                           ++ py "' object has no attribute 'get'")])
  end.

End AnnotationsItem.

(** On the list a comprehension of [AnnotationsItem.from_dict] builds,
    both tests of [_validate_collection_of_type] pass: the value is a list
    and each item is an [AnnotationsItem]. *)
Definition _validate_list_of_annotations_items `{ExprLib} (attribute : str)
  (value : list AnnotationsItem.t) : result unit :=
  Ok tt.

(** ** global_licensing.py, lines 32-97: GlobalLicensing and ReuseDep5 *)

(** The abstract class: a [source] and the two abstract methods. *)
Class GlobalLicensing `{Environment} (T : Type) := {
  source : T -> str;
  from_file : str -> result T;
  reuse_info_of : T -> str -> result ReuseInfo.t
}.

Module ReuseDep5.

Record t := make {
  source : str;
  dep5_copyright : Debian.Copyright
}.

(** [Copyright(fp)]: python-debian reads the open stream line by line,
    and the stream decodes as it is read: python-debian can refuse the
    lines before an undecodable byte before that byte is decoded. *)
Definition Copyright_of_stream `{Environment} (raw : list Byte.byte)
  : result Debian.Copyright :=
  let stream := text_stream (readahead raw) raw in
  read_lines Copyright_new (reader_start Copyright_new)
             (fst stream) (snd stream).

Definition from_file `{Environment} (path : str) : result t :=
  let path := as_posix path in
  match (raw <- path_open path ;;
         c <- Copyright_of_stream raw ;;
         _ <- instance_of T_str (py "source") (PStr path) ;;
         Ok (make path c)) with
  | Ok self => Ok self
  | Raise error =>
    if catches UnicodeDecodeError error then Raise error
    else if catches DebianError error || catches ValueError error then
      Raise (Exn GlobalLicensingParseError [AMsg (exn_str error)])
    else Raise error
  end.

Definition reuse_info_of `{Environment} (self : t) (path : str)
  : result ReuseInfo.t :=
  let path := as_posix path in
  match Debian.find_files_paragraph (dep5_copyright self) path with
  | None => Ok ReuseInfo.empty
  | Some result =>
    parsed <- mapM licensing_parse
                   [PStr (Debian.synopsis (Debian.license result))] ;;
    spdx_expressions <- set_of parsed ;;
    copyright_lines <-
      set_of (map (fun line => PStr (strip line))
                  (splitlines (Debian.copyright result))) ;;
    Ok (ReuseInfo.make spdx_expressions copyright_lines (Some path)
                       (Some DEP5) (Some (py ".reuse/dep5")))
  end.

End ReuseDep5.

#[export] Instance ReuseDep5_GlobalLicensing `{Environment}
  : GlobalLicensing ReuseDep5.t := {
  source := ReuseDep5.source;
  from_file := ReuseDep5.from_file;
  reuse_info_of := ReuseDep5.reuse_info_of
}.

(** ** global_licensing.py, lines 212-253: ReuseTOML *)

Module ReuseTOML.

Record t `{ExprLib} := make {
  source : str;
  version : pyval;
  annotations : list AnnotationsItem.t
}.

(** The generated [__init__]: no converter; the validators of [source]
    (inherited), [version] and [annotations], in this order. *)
Definition init `{Environment} (source : str) (version : pyval)
  (annotations : list AnnotationsItem.t) : result t :=
  _ <- instance_of T_str (py "source") (PStr source) ;;
  _ <- instance_of T_int (py "version") version ;;
  _ <- _validate_list_of_annotations_items (py "annotations") annotations ;;
  Ok (make source version annotations).

Definition from_dict `{Environment} (values : dict) (source : str)
  : result t :=
  let version := dict_get (py "version") PNone values in
  annotation_dicts <- iterate (dict_get (py "annotations") (PList []) values) ;;
  annotations <- mapM AnnotationsItem.from_dict_call annotation_dicts ;;
  init source version annotations.

Definition from_toml `{Environment} (toml : str) (source : str) : result t :=
  tomldict <- tomlkit_loads toml ;;
  from_dict tomldict source.

Definition from_file `{Environment} (path : str) : result t :=
  raw <- path_open (as_posix path) ;;
  toml <- fp_read raw ;;
  from_toml toml path.

Definition reuse_info_of `{Environment} (self : t) (path : str)
  : result ReuseInfo.t :=
  Raise (Exn NotImplementedError []).

End ReuseTOML.

#[export] Instance ReuseTOML_GlobalLicensing `{Environment}
  : GlobalLicensing ReuseTOML.t := {
  source := ReuseTOML.source;
  from_file := ReuseTOML.from_file;
  reuse_info_of := ReuseTOML.reuse_info_of
}.

(** ** global_licensing.py, lines 164-177, with the log

    [_str_to_set_of_expr] once more, beside what it hands to
    [_LOGGER.error]: a call is recorded by the expression its message
    names. *)

(** The [try] holds the parse and the [add]; the [except] clause logs the
    expression when the exception is an [ExpressionError] or a
    [ParseError], and re-raises. *)
Fixpoint parse_each_logged `{Environment} (acc : list pyval)
  (expressions : list pyval) : list pyval * result (list pyval) :=
  match expressions with
  | [] => ([], Ok acc)
  | expression :: rest =>
    match (e <- licensing_parse expression ;; set_add acc e) with
    | Ok acc' => parse_each_logged acc' rest
    | Raise error =>
      (if catches ExpressionError error || catches ParseError error
       then [expression] else [],
       Raise error)
    end
  end.

Definition _str_to_set_of_expr_logged `{Environment} (value : pyval)
  : list pyval * result pyval :=
  match (value' <- _str_to_set value ;; iterate value') with
  | Raise error => ([], Raise error)
  | Ok expressions =>
    let (logged, r) := parse_each_logged [] expressions in
    (logged, r' <- r ;; Ok (PSet r'))
  end.

(** ** A sample environment

    One instance of the libraries and of the file system, small enough to
    evaluate, on which the statements below are exercised. *)

Module Sample.

(** Expressions by their text. *)
#[export] Instance expr_lib : ExprLib := {
  Expression := str;
  Expression_eq_dec := list_eq_dec N.eq_dec
}.

Definition is_operator (w : str) : bool :=
  str_eqb w (py "AND") || str_eqb w (py "OR") || str_eqb w (py "WITH").

Definition is_id_char (c : N) : bool :=
  in_range 48 57 c || in_range 65 90 c || in_range 97 122 c
  || (c =? 43)%N || (c =? 45)%N || (c =? 46)%N.

Definition is_id (w : str) : bool :=
  negb (str_eqb w []) && forallb is_id_char w && negb (is_operator w).

(** Identifiers joined by operators. *)
Fixpoint well_formed (expect_id : bool) (words : list str) : bool :=
  match words with
  | [] => negb expect_id
  | w :: rest =>
    if expect_id then is_id w && well_formed false rest
    else is_operator w && well_formed true rest
  end.

(** A license parser after [Licensing.parse]: [None] and blank text give
    [None], an expression is returned as it is, a value that is not text
    and text that is not an expression raise [ExpressionError]. *)
Definition parse (v : pyval) : result pyval :=
  match v with
  | PNone => Ok PNone
  | PExpr e => Ok (PExpr e)
  | PStr s =>
    if str_eqb (strip s) [] then Ok PNone
    else if well_formed true (split_on 32 [] s) then Ok (PExpr s)
    else Raise (Exn ExpressionError [AMsg (py "Invalid expression")])
  | _ => Raise (Exn ExpressionError [AMsg (py "expression must be a string")])
  end.

Definition row : Debian.FilesParagraph :=
  {| Debian.license := {| Debian.synopsis := py "MIT"; Debian.text := [] |};
     Debian.copyright := py "2020 Jane Doe " ++ 10%N :: py "  2021 John Roe" |}.

(** One [Files: src/*] paragraph. *)
Definition table : Debian.Copyright :=
  {| Debian.find_files_paragraph := fun path =>
       match split_slash path with
       | [d; _] => if str_eqb d (py "src") then Some row else None
       | _ => None
       end |}.

(** A table whose paragraph, for every path, has the license "MIT OR". *)
Definition bad_table : Debian.Copyright :=
  {| Debian.find_files_paragraph := fun _ =>
       Some {| Debian.license :=
                 {| Debian.synopsis := py "MIT OR"; Debian.text := [] |};
               Debian.copyright := py "2020 Jane Doe" |} |}.

(** "Field: value". *)
Definition is_field_line (line : str) : bool :=
  match line with
  | c :: _ => negb (is_space c) && negb (c =? 58)%N && existsb (N.eqb 58) line
  | [] => false
  end.

(** A dep5 reader: it takes blank lines, comments, "Field: value" lines
    and, after a field, continuation lines; it refuses any other line as
    soon as it has read it, and at the end a text without a field, as
    python-debian does.  Its state: whether a field was read. *)
Definition dep5_line (seen : bool) (line : str)
  : bool + result Debian.Copyright :=
  if str_eqb (strip line) [] then inl seen
  else match line with
       | c :: _ =>
         if (c =? 35)%N then inl seen
         else if is_space c && seen then inl true
         else if is_field_line line then inl true
         else inr (Raise (Exn ValueError
                              [AMsg (py "line is not in deb822 format")]))
       | [] => inl seen
       end.

Definition copyright_new : line_reader Debian.Copyright :=
  {| reader_state := bool;
     reader_start := false;
     reader_line := dep5_line;
     reader_end := fun seen =>
       if seen then Ok table
       else Raise (Exn DebianError [AMsg (py "no paragraphs in input")]) |}.

(** The blocks of a stream are of 8192 bytes: the lines handed out before
    the block with the first undecodable byte is decoded are those ended
    within the blocks before it. *)
Definition blocks_readahead (raw : list Byte.byte) : nat :=
  let bytes := map Byte.to_N raw in
  let valid := List.length bytes
               - List.length (snd (utf8_decode_upto bytes)) in
  let whole := (valid / N.to_nat 8192) * N.to_nat 8192 in
  List.length
    (complete_lines
       (translate_newlines (fst (utf8_decode_upto (firstn whole bytes))))).

Definition nl : string := String (ascii_of_nat 10) EmptyString.

(** A dep5 file of a header and one [Files] paragraph. *)
Definition dep5_text : string :=
  ("Format: https://www.debian.org/doc/packaging-manuals/copyright-format/1.0/"
   ++ nl ++ nl ++ "Files: src/*" ++ nl ++ "Copyright: 2020 Jane Doe" ++ nl
   ++ "License: MIT" ++ nl)%string.

(** A line that is no dep5, 8192 line ends, and the byte FF: the FF is in
    the second block of the stream. *)
Definition late_ff : list Byte.byte :=
  Byte.x78 :: repeat Byte.x0a (N.to_nat 8192) ++ [Byte.xff].

(** A TOML reader for two documents. *)
Definition loads (text : str) : result dict :=
  if str_eqb text [] then Ok []
  else if str_eqb text (py "version = 1") then Ok [(py "version", PInt 1)]
  else Raise (Exn TOMLKitError [AMsg (py "Invalid TOML")]).

(** Five files: one of a lone byte FF, one empty, one of "version = 1",
    a dep5 file, and one with a late FF. *)
Definition files (path : str) : result (list Byte.byte) :=
  if str_eqb path (py "bad/latin1") then Ok [Byte.xff]
  else if str_eqb path (py "empty") then Ok []
  else if str_eqb path (py ".reuse/dep5") then
    Ok (list_byte_of_string dep5_text)
  else if str_eqb path (py "bad/late") then Ok late_ff
  else if str_eqb path (py "REUSE.toml") then
    Ok (list_byte_of_string "version = 1")
  else Raise (Exn FileNotFoundError [AMsg path]).

#[export] Instance env : Environment := {
  repr := fun v => match v with
                   | PNone => py "None"
                   | PStr s => py "'" ++ s ++ py "'"
                   | _ => py "..."
                   end;
  class_repr := fun v => pytype_repr (type_of v);
  exn_str := fun e => match exc_args e with
                      | [AMsg m] => m
                      | _ => []
                      end;
  licensing_parse := parse;
  Copyright_new := copyright_new;
  readahead := blocks_readahead;
  tomlkit_loads := loads;
  path_open := files
}.

(** [[[annotations]]] with every key set and one key more. *)
Definition annotation : dict :=
  [(py "path", PList [PStr (py "src/*.py"); PStr (py "doc/**")]);
   (py "precedence", PStr (py "aggregate"));
   (py "SPDX-FileCopyrightText", PStr (py "2020 Jane Doe"));
   (py "SPDX-License-Identifier",
    PList [PStr (py "MIT"); PStr (py "GPL-3.0-or-later OR Apache-2.0")]);
   (py "comment", PInt 7)].

(** [d[k] = v]. *)
Fixpoint dict_set (k : str) (v : pyval) (d : dict) : dict :=
  match d with
  | [] => [(k, v)]
  | (k', v') :: d' =>
    if str_eqb k k' then (k, v) :: d' else (k', v') :: dict_set k v d'
  end.

End Sample.

(** ** Basic facts about the runtime model *)

Lemma str_eqb_eq (a b : str) : str_eqb a b = true <-> a = b.
Proof.
  revert b; induction a as [|x a IH]; intros [|y b]; simpl;
    try (split; (discriminate || reflexivity)).
  rewrite andb_true_iff, N.eqb_eq, IH.
  split; [intros [-> ->]; reflexivity | intros E; injection E; auto].
Qed.

Lemma str_eqb_refl (a : str) : str_eqb a a = true.
Proof. apply str_eqb_eq; reflexivity. Qed.

Lemma bind_ok `{ExprLib} {A B} (r : result A) (k : A -> result B) (b : B) :
  bind r k = Ok b -> exists a, r = Ok a /\ k a = Ok b.
Proof. destruct r as [a|e]; simpl; [eauto | discriminate]. Qed.

Lemma bind_raise `{ExprLib} {A B} (r : result A) (k : A -> result B) e :
  r = Raise e -> bind r k = Raise e.
Proof. intros ->; reflexivity. Qed.

(** Takes a successful sequence of steps apart. *)
Ltac bind_inv H :=
  repeat match type of H with
         | bind _ _ = Ok _ =>
           let a := fresh "a" in
           let Ha := fresh "Hstep" in
           apply bind_ok in H; destruct H as [a [Ha H]]
         end.

Lemma py_eqb_refl `{ExprLib} (v : pyval) :
  hashable v = true -> py_eqb v v = true.
Proof.
  destruct v; simpl; try discriminate; intros _; auto.
  - apply Bool.eqb_reflx.
  - apply Z.eqb_refl.
  - apply str_eqb_refl.
  - destruct (Expression_eq_dec e e); congruence.
Qed.

Lemma py_eqb_sym `{ExprLib} (a b : pyval) : py_eqb a b = py_eqb b a.
Proof.
  destruct a, b; simpl; auto.
  - destruct b, b0; reflexivity.
  - apply Z.eqb_sym.
  - apply eq_true_iff_eq; rewrite !str_eqb_eq; split; congruence.
  - destruct (Expression_eq_dec e e0), (Expression_eq_dec e0 e); congruence.
Qed.

(** Only a string equals a string. *)
Lemma py_eqb_str `{ExprLib} (v : pyval) (s : str) :
  py_eqb v (PStr s) = true <-> v = PStr s.
Proof.
  destruct v; simpl; try (split; (discriminate || reflexivity)).
  rewrite str_eqb_eq; split; congruence.
Qed.

Lemma set_mem_In `{ExprLib} (v : pyval) (s : list pyval) :
  hashable v = true -> In v s -> set_mem v s = true.
Proof.
  intros Hh Hin; apply existsb_exists; exists v; split; auto.
  apply py_eqb_refl; assumption.
Qed.

(** What the precedence test of [_validate_literal] accepts. *)
Lemma precedence_mem_spec `{ExprLib} (v : pyval) :
  set_mem v precedence_args = true <->
  v = PStr (py "aggregate") \/ v = PStr (py "file") \/ v = PStr (py "toml").
Proof.
  unfold set_mem, precedence_args; simpl.
  rewrite !orb_true_iff, !py_eqb_str.
  intuition discriminate.
Qed.

(** ** Sets *)

Lemma distinct_snoc `{ExprLib} (s : list pyval) (v : pyval) :
  distinct s -> set_mem v s = false -> distinct (s ++ [v]).
Proof.
  unfold distinct; intros Hd Hm; induction Hd as [|a l Ha Hd IH]; simpl.
  - repeat constructor.
  - simpl in Hm; apply orb_false_iff in Hm; destruct Hm as [Hav Hm].
    constructor; [|apply IH; exact Hm].
    apply Forall_app; split; [exact Ha|].
    constructor; [|constructor].
    rewrite py_eqb_sym; exact Hav.
Qed.

Lemma set_mem_app `{ExprLib} (v : pyval) (s t : list pyval) :
  set_mem v (s ++ t) = set_mem v s || set_mem v t.
Proof. apply existsb_app. Qed.

(** [set.update] over hashable elements: it returns, adds nothing but the
    elements it is given, loses none, and keeps the elements distinct. *)
Lemma set_update_ok `{ExprLib} (l acc : list pyval) :
  forallb hashable l = true ->
  exists s, set_update acc l = Ok s /\
    (forall x, In x s -> In x acc \/ In x l) /\
    (forall x, set_mem x acc = true -> set_mem x s = true) /\
    (forall x, In x l -> set_mem x s = true) /\
    (distinct acc -> distinct s).
Proof.
  revert acc; induction l as [|v l IH]; intros acc Hh; simpl in *.
  - exists acc; repeat split; auto; intros x [].
  - apply andb_true_iff in Hh; destruct Hh as [Hv Hl].
    unfold set_add; rewrite Hv; simpl.
    destruct (IH (if set_mem v acc then acc else acc ++ [v]) Hl)
      as [s [E [Hsub [Hacc [Hin Hd]]]]].
    exists s; split; [exact E|].
    assert (Hv' : set_mem v (if set_mem v acc then acc else acc ++ [v]) = true).
    { destruct (set_mem v acc) eqn:Em; [exact Em|].
      rewrite set_mem_app; simpl; rewrite (py_eqb_refl v Hv).
      apply orb_true_iff; right; reflexivity. }
    repeat split.
    + intros x Hx; destruct (Hsub x Hx) as [Hx'|Hx']; [|tauto].
      destruct (set_mem v acc); [tauto|].
      apply in_app_or in Hx'; simpl in Hx'; intuition.
    + intros x Hx; apply Hacc.
      destruct (set_mem v acc); [exact Hx|].
      rewrite set_mem_app, Hx; reflexivity.
    + intros x [<-|Hx]; [apply Hacc; exact Hv' | apply Hin; exact Hx].
    + intros Hda; apply Hd.
      destruct (set_mem v acc) eqn:Em; [exact Hda|].
      apply distinct_snoc; assumption.
Qed.

(** [set.update] over a list with an unhashable element raises
    [TypeError]. *)
Lemma set_update_raise `{ExprLib} (l acc : list pyval) :
  forallb hashable l = false ->
  exists args, set_update acc l = Raise (Exn TypeError args).
Proof.
  revert acc; induction l as [|v l IH]; intros acc Hh; simpl in *.
  - discriminate.
  - unfold set_add; destruct (hashable v) eqn:Hv; simpl in *.
    + apply IH; exact Hh.
    + eexists; reflexivity.
Qed.

(** A set of strings has exactly the strings it was built from. *)
Lemma set_of_strs `{ExprLib} (l : list str) :
  exists s, set_of (map PStr l) = Ok s /\ distinct s /\
    forall v, In v s <-> exists x, In x l /\ v = PStr x.
Proof.
  destruct (set_update_ok (map PStr l) []) as [s [E [Hsub [_ [Hin Hd]]]]].
  { rewrite forallb_forall; intros v Hv; apply in_map_iff in Hv.
    destruct Hv as [x [<- _]]; reflexivity. }
  exists s; split; [exact E|]; split; [apply Hd; constructor|].
  intros v; split.
  - intros Hv; destruct (Hsub v Hv) as [[]|Hv'].
    apply in_map_iff in Hv'; destruct Hv' as [x [<- Hx]]; eauto.
  - intros [x [Hx ->]].
    assert (Hm : set_mem (PStr x) s = true) by (apply Hin, in_map, Hx).
    apply existsb_exists in Hm; destruct Hm as [y [Hy Heq]].
    rewrite py_eqb_sym in Heq; apply py_eqb_str in Heq; subst y; exact Hy.
Qed.

(** ** Stripping *)

Lemma lstrip_suffix (s : str) : exists p, s = p ++ lstrip s.
Proof.
  induction s as [|c r [p IH]]; simpl.
  - exists []; reflexivity.
  - destruct (is_space c).
    + exists (c :: p); simpl; f_equal; exact IH.
    + exists []; reflexivity.
Qed.

Lemma lstrip_head (s r : str) (c : N) :
  lstrip s = c :: r -> is_space c = false.
Proof.
  induction s as [|d s IH]; simpl; [discriminate|].
  destruct (is_space d) eqn:E; [exact IH|].
  intros Heq; injection Heq as -> _; exact E.
Qed.

Lemma lstrip_fixed (s : str) :
  match s with [] => True | c :: _ => is_space c = false end ->
  lstrip s = s.
Proof. destruct s as [|c r]; simpl; [reflexivity | intros ->; reflexivity]. Qed.

Lemma lstrip_idem (s : str) : lstrip (lstrip s) = lstrip s.
Proof.
  apply lstrip_fixed; destruct (lstrip s) as [|c r] eqn:E; [exact I|].
  exact (lstrip_head _ E).
Qed.

(** [str.strip] leaves no white space at either end. *)
Lemma strip_stripped (s : str) : stripped (strip s).
Proof.
  unfold stripped, strip; split.
  - destruct (lstrip_suffix (rev (lstrip s))) as [p Hp].
    apply lstrip_fixed.
    destruct (rev (lstrip (rev (lstrip s)))) as [|c r] eqn:E; [exact I|].
    apply (f_equal (@rev N)) in Hp.
    rewrite rev_involutive, rev_app_distr, E in Hp; simpl in Hp.
    exact (lstrip_head _ Hp).
  - rewrite rev_involutive; apply lstrip_idem.
Qed.

(** ** Validators *)

Lemma check_items_str `{Environment} (attribute : str) (items : list pyval) :
  check_items attribute T_str items = Ok tt ->
  forall v, In v items -> exists x, v = PStr x.
Proof.
  induction items as [|item items IH]; simpl; [intros _ v []|].
  destruct (isinstance item T_str) eqn:E; simpl; [|discriminate].
  intros Hrest v [<-|Hv]; [|exact (IH Hrest v Hv)].
  destruct item; try discriminate; eauto.
Qed.

Lemma _str_to_set_is_set `{ExprLib} (value r : pyval) :
  _str_to_set value = Ok r -> exists s, r = PSet s.
Proof.
  unfold _str_to_set; intros E.
  destruct (isinstance value T_str); [|destruct (has_iter value)];
    bind_inv E; injection E as <-; eauto.
Qed.

Lemma precedence_absent `{ExprLib} (values : dict) :
  dict_lookup (py "precedence") values = None ->
  set_mem (dict_get (py "precedence") PNone values) precedence_args = false.
Proof. unfold dict_get; intros ->; reflexivity. Qed.

(** ** The claims *)

(** C1, amended.  [ReuseTOML.from_dict] tests the [version] only with
    [instance_of(int)]: once the annotations are built, any integer
    (a bool is one), the unsupported 99 too, is accepted and stored as it
    is; any other value, [None] for an absent key too, raises [TypeError],
    which is not a [GlobalLicensingParseError].  [from_toml] is [from_dict]
    on what [tomlkit.loads] returns. *)
Theorem ReuseTOML_from_dict_version `{Environment}
  (values : dict) (source : str) (items : list AnnotationsItem.t) :
  (annotation_dicts <-
     iterate (dict_get (py "annotations") (PList []) values) ;;
   mapM AnnotationsItem.from_dict_call annotation_dicts) = Ok items ->
  (isinstance (dict_get (py "version") PNone values) T_int = true ->
   ReuseTOML.from_dict values source =
   Ok (ReuseTOML.make source (dict_get (py "version") PNone values) items))
  /\ (isinstance (dict_get (py "version") PNone values) T_int = false ->
      exists args,
        ReuseTOML.from_dict values source = Raise (Exn TypeError args))
  /\ issubclass TypeError GlobalLicensingParseError = false
  /\ (forall toml,
        tomlkit_loads toml = Ok values ->
        ReuseTOML.from_toml toml source = ReuseTOML.from_dict values source).
Proof.
  intros Hitems; bind_inv Hitems.
  unfold ReuseTOML.from_toml, ReuseTOML.from_dict, ReuseTOML.init,
    instance_of.
  rewrite Hstep; simpl; rewrite Hitems; simpl.
  repeat split.
  - intros ->; reflexivity.
  - intros ->; simpl; eexists; reflexivity.
  - intros toml ->; simpl; rewrite Hstep; simpl; rewrite Hitems; reflexivity.
Qed.

(** An integer version and no [annotations] key. *)
Lemma ReuseTOML_from_dict_version_witness :
  @ReuseTOML.from_dict _ Sample.env [(py "version", PInt 1)] (py "REUSE.toml")
  = Ok (ReuseTOML.make (py "REUSE.toml") (PInt 1) []).
Proof.
  apply (@ReuseTOML_from_dict_version _ Sample.env
           [(py "version", PInt 1)] (py "REUSE.toml") []);
    reflexivity.
Defined.

(** C1 fails as stated: the record [version = 99] is accepted, and the
    document carries the version 99. *)
Lemma ReuseTOML_version_99_accepted :
  @ReuseTOML.from_dict _ Sample.env [(py "version", PInt 99)] (py "REUSE.toml")
  = Ok (ReuseTOML.make (py "REUSE.toml") (PInt 99) [])
  /\ ~ exists e,
        @ReuseTOML.from_dict _ Sample.env [(py "version", PInt 99)]
          (py "REUSE.toml") = Raise e.
Proof. split; [reflexivity | intros [e E]; discriminate E]. Qed.

(** C2, amended.  A record whose [precedence] is absent or is not one of
    "aggregate", "file" and "toml" is never accepted.  When the three
    converters and the validator of [paths], which run first, pass, the
    exception is the [ValueError] of [_validate_literal]; [ValueError] is
    not a [GlobalLicensingParseError]. *)
Theorem from_dict_precedence_invalid `{Environment} (values : dict) :
  set_mem (dict_get (py "precedence") PNone values) precedence_args = false ->
  (exists e, AnnotationsItem.from_dict values = Raise e)
  /\ (forall ps cs es,
        _str_to_set (dict_get (py "path") PNone values) = Ok ps ->
        _str_to_set (dict_get (py "SPDX-FileCopyrightText") PNone values)
        = Ok cs ->
        _str_to_set_of_expr
          (dict_get (py "SPDX-License-Identifier") PNone values) = Ok es ->
        _validate_set_of_str (py "paths") ps = Ok tt ->
        exists msg,
          AnnotationsItem.from_dict values = Raise (Exn ValueError [AMsg msg]))
  /\ issubclass ValueError GlobalLicensingParseError = false.
Proof.
  intros Hbad; unfold AnnotationsItem.from_dict, AnnotationsItem.init.
  split; [|split; [|reflexivity]].
  - do 4 (match goal with
          | |- exists e, bind ?r _ = Raise e =>
            destruct r; simpl; [|eexists; reflexivity]
          end).
    unfold _validate_literal; rewrite Hbad; simpl; eexists; reflexivity.
  - intros ps cs es -> -> -> Hps; simpl; rewrite Hps; simpl.
    unfold _validate_literal; rewrite Hbad; simpl; eexists; reflexivity.
Qed.

(** The sample annotation without its [precedence]. *)
Lemma from_dict_precedence_invalid_witness :
  exists e,
    @AnnotationsItem.from_dict _ Sample.env
      (filter (fun kv => negb (str_eqb (fst kv) (py "precedence")))
              Sample.annotation) = Raise e.
Proof.
  apply (@from_dict_precedence_invalid _ Sample.env
           (filter (fun kv => negb (str_eqb (fst kv) (py "precedence")))
                   Sample.annotation)).
  apply precedence_absent; reflexivity.
Defined.

(** C2 fails as stated: "bogus" is refused with a [ValueError], which no
    [except GlobalLicensingParseError] nor [except ParseError] catches. *)
Lemma from_dict_precedence_bogus_ValueError :
  exists e,
    @AnnotationsItem.from_dict _ Sample.env
      (Sample.dict_set (py "precedence") (PStr (py "bogus")) Sample.annotation)
    = Raise e
    /\ exc_type e = ValueError
    /\ catches GlobalLicensingParseError e = false
    /\ catches ParseError e = false.
Proof. eexists; repeat split. Qed.

(** C3, amended.  The [paths] of a constructed item is the set
    [_str_to_set] makes of the [path] value, and each of its elements is a
    string; the set can be empty, as it is for [path = []]. *)
Theorem from_dict_paths `{Environment}
  (values : dict) (item : AnnotationsItem.t) :
  AnnotationsItem.from_dict values = Ok item ->
  exists s,
    AnnotationsItem.paths item = PSet s
    /\ _str_to_set (dict_get (py "path") PNone values) = Ok (PSet s)
    /\ (forall v, In v s -> exists x, v = PStr x)
    /\ (dict_get (py "path") PNone values = PList [] -> s = []).
Proof.
  unfold AnnotationsItem.from_dict, AnnotationsItem.init; intros E.
  bind_inv E; injection E as <-; simpl.
  destruct (_str_to_set_is_set _ Hstep) as [s ->].
  exists s; repeat split; auto.
  - unfold _validate_set_of_str, _validate_collection_of_type in Hstep2.
    simpl in Hstep2; destruct a2.
    exact (check_items_str _ _ Hstep2).
  - intros Hp; rewrite Hp in Hstep; injection Hstep as <-; reflexivity.
Qed.

(** The sample annotation, with two paths. *)
Lemma from_dict_paths_witness :
  exists s,
    _str_to_set (dict_get (py "path") PNone Sample.annotation) = Ok (PSet s)
    /\ forall v, In v s -> exists x, v = PStr x.
Proof.
  destruct (@from_dict_paths _ Sample.env Sample.annotation _ eq_refl)
    as [s [_ [Hs [Hstr _]]]].
  exists s; split; assumption.
Defined.

(** C3 fails as stated: [path = []] is accepted, and the item has no
    path. *)
Lemma from_dict_empty_paths_accepted :
  exists item,
    @AnnotationsItem.from_dict _ Sample.env
      (Sample.dict_set (py "path") (PList []) Sample.annotation) = Ok item
    /\ AnnotationsItem.paths item = PSet [].
Proof. eexists; split; reflexivity. Qed.





(** C8, amended.  [_str_to_set] makes the one-element set of a string and
    of a value that is not iterable.  Of any other iterable it makes the
    set of its elements when each of them is hashable, and raises
    [TypeError] when one of them, a list or a dict, is not: it is not
    total. *)
Theorem str_to_set_spec `{ExprLib} (value : pyval) :
  (isinstance value T_str = true \/ has_iter value = false ->
   _str_to_set value = Ok (PSet [value]))
  /\ (isinstance value T_str = false -> has_iter value = true ->
      exists items,
        iterate value = Ok items
        /\ (forallb hashable items = true ->
            exists s,
              _str_to_set value = Ok (PSet s)
              /\ distinct s
              /\ (forall x, In x s -> In x items)
              /\ (forall x, In x items -> set_mem x s = true))
        /\ (forallb hashable items = false ->
            exists args, _str_to_set value = Raise (Exn TypeError args))).
Proof.
  split.
  - intros [Hs|Hi]; destruct value; try discriminate; reflexivity.
  - intros Hs Hi; unfold _str_to_set; rewrite Hs, Hi.
    assert (Hit : exists items, iterate value = Ok items)
      by (destruct value; try discriminate; simpl; eauto).
    destruct Hit as [items Hit]; exists items; rewrite Hit; simpl.
    split; [reflexivity|]; split; intros Hh.
    + destruct (set_update_ok items [] Hh) as [s [E [Hsub [_ [Hin Hd]]]]].
      exists s; unfold set_of; rewrite E; simpl; repeat split; auto.
      * apply Hd; constructor.
      * intros x Hx; destruct (Hsub x Hx) as [[]|Hx']; exact Hx'.
    + destruct (set_update_raise items [] Hh) as [args E].
      exists args; unfold set_of; rewrite E; reflexivity.
Qed.

(** C8 fails as stated: on [[[]]], a list that holds a list,
    [_str_to_set] raises. *)
Lemma str_to_set_not_total :
  exists args,
    @_str_to_set Sample.expr_lib (PList [PList []])
    = Raise (Exn TypeError args).
Proof. eexists; reflexivity. Qed.

(** C10.  [AnnotationsItem.from_dict] depends on its record only through
    the keys "path", "precedence", "SPDX-FileCopyrightText" and
    "SPDX-License-Identifier": two records that agree on them give the
    same item or the same exception, whatever other keys they hold. *)
Theorem from_dict_ignores_other_keys `{Environment} (values values' : dict) :
  (forall k, In k AnnotationsItem.keys_read ->
             dict_lookup k values = dict_lookup k values') ->
  AnnotationsItem.from_dict values = AnnotationsItem.from_dict values'.
Proof.
  intros Hk; unfold AnnotationsItem.from_dict, dict_get.
  rewrite !Hk; [reflexivity|..]; simpl; auto.
Qed.

(** The sample annotation with and without its "comment" key. *)
Lemma from_dict_ignores_other_keys_witness :
  @AnnotationsItem.from_dict _ Sample.env Sample.annotation
  = @AnnotationsItem.from_dict _ Sample.env
      (filter (fun kv => negb (str_eqb (fst kv) (py "comment")))
              Sample.annotation).
Proof.
  apply (@from_dict_ignores_other_keys _ Sample.env).
  intros k [<-|[<-|[<-|[<-|[]]]]]; reflexivity.
Defined.

(** C7.  [ReuseTOML.reuse_info_of] raises [NotImplementedError] for every
    document and every path, and returns no [ReuseInfo]. *)
Theorem ReuseTOML_reuse_info_of_not_implemented `{Environment}
  (self : ReuseTOML.t) (path : str) :
  reuse_info_of self path = Raise (Exn NotImplementedError [])
  /\ forall info, reuse_info_of self path <> Ok info.
Proof. split; [reflexivity | intros info; discriminate]. Qed.

(** The decoder stops where the prefix decoder stops: bytes decode
    exactly when the prefix that decodes is all of them. *)
Lemma utf8_decode_upto_spec (bs : list N) :
  utf8_decode bs = match utf8_decode_upto bs with
                   | (t, []) => Some t
                   | (_, _ :: _) => None
                   end.
Proof.
  remember (List.length bs) as n eqn:Hn.
  assert (Hle : List.length bs <= n) by lia; clear Hn.
  revert bs Hle; induction n as [|n IH]; intros bs Hle.
  - destruct bs; [reflexivity | simpl in Hle; lia].
  - destruct bs as [|b0 r0]; [reflexivity|].
    cbn [utf8_decode utf8_decode_upto]; simpl in Hle.
    assert (Hrec : forall c r, List.length r <= n ->
              option_map (cons c) (utf8_decode r)
              = match (c :: fst (utf8_decode_upto r), snd (utf8_decode_upto r))
                with
                | (t, []) => Some t
                | (_, _ :: _) => None
                end).
    { intros c r Hr; rewrite (IH r Hr).
      destruct (utf8_decode_upto r) as [t [|x rest]]; reflexivity. }
    destruct (b0 <? 128)%N; [apply Hrec; lia|].
    destruct (in_range 194 223 b0).
    { destruct r0 as [|b1 r1]; [reflexivity|]; simpl in Hle.
      destruct (cont b1); [apply Hrec; lia | reflexivity]. }
    destruct (in_range 224 239 b0).
    { destruct r0 as [|b1 [|b2 r2]]; try reflexivity; simpl in Hle.
      destruct (in_range _ _ b1 && cont b2); [apply Hrec; lia | reflexivity]. }
    destruct (in_range 240 244 b0); [|reflexivity].
    destruct r0 as [|b1 [|b2 [|b3 r3]]]; try reflexivity; simpl in Hle.
    destruct (in_range _ _ b1 && cont b2 && cont b3);
      [apply Hrec; lia | reflexivity].
Qed.

(** A reader on a stream that fails after [lines]: either it asks for a
    line more and the exception of the stream is raised, or it finishes
    within [lines], with the result it has on every stream that begins
    with them. *)
Lemma read_lines_failing `{ExprLib} {A} (r : line_reader A)
  (lines : list str) (s : reader_state r) e :
  read_lines r s lines (Some e) = Raise e
  \/ exists x,
       read_lines r s lines (Some e) = x
       /\ forall more failure, read_lines r s (lines ++ more) failure = x.
Proof.
  revert s; induction lines as [|line rest IH]; intros s; simpl.
  - left; reflexivity.
  - destruct (reader_line r s line) as [s'|x]; [apply IH|].
    right; exists x; split; [reflexivity | intros more failure; reflexivity].
Qed.

(** C4, amended.  For a file whose bytes are not UTF-8,
    [ReuseTOML.from_file], which reads the file to its end before it
    parses, raises the [UnicodeDecodeError] of the codec, which is not a
    [GlobalLicensingParseError].  [ReuseDep5.from_file] gives python-debian
    the open stream: what [Copyright(fp)] raises leaves [from_file] as it
    is when it is a [UnicodeDecodeError], although that is a [ValueError],
    and as a [GlobalLicensingParseError] with its text when it is another
    [ValueError] or a [debian.copyright.Error]; and over such a file
    [Copyright(fp)] either raises the [UnicodeDecodeError] or has, on the
    lines handed out before the undecodable byte is decoded, the result it
    has on every stream that begins with them. *)
Theorem from_file_decode_error `{Environment}
  (path : str) (raw : list Byte.byte) :
  path_open (as_posix path) = Ok raw ->
  (utf8_decode (map Byte.to_N raw) = None ->
   from_file (T:=ReuseTOML.t) path = Raise unicode_decode_error
   /\ exc_type unicode_decode_error = UnicodeDecodeError
   /\ catches GlobalLicensingParseError unicode_decode_error = false
   /\ (ReuseDep5.Copyright_of_stream raw = Raise unicode_decode_error
       \/ exists x,
            ReuseDep5.Copyright_of_stream raw = x
            /\ forall more failure,
                 read_lines Copyright_new (reader_start Copyright_new)
                   (fst (text_stream (readahead raw) raw) ++ more) failure
                 = x))
  /\ (forall error,
        ReuseDep5.Copyright_of_stream raw = Raise error ->
        catches UnicodeDecodeError error = true ->
        from_file (T:=ReuseDep5.t) path = Raise error)
  /\ (forall error,
        ReuseDep5.Copyright_of_stream raw = Raise error ->
        catches UnicodeDecodeError error = false ->
        catches DebianError error || catches ValueError error = true ->
        from_file (T:=ReuseDep5.t) path =
        Raise (Exn GlobalLicensingParseError [AMsg (exn_str error)])).
Proof.
  intros Hopen; simpl.
  unfold ReuseDep5.from_file, ReuseTOML.from_file, fp_read.
  rewrite Hopen; cbn [bind]; split; [|split].
  - intros Hdec; repeat split.
    + unfold read_text; rewrite Hdec; reflexivity.
    + unfold ReuseDep5.Copyright_of_stream, text_stream, read_text.
      rewrite Hdec; cbn [option_map fst snd].
      apply read_lines_failing.
  - intros error Hc Hu; rewrite Hc; cbn [bind]; rewrite Hu; reflexivity.
  - intros error Hc Hu Hw; rewrite Hc; cbn [bind]; rewrite Hu, Hw.
    reflexivity.
Qed.

(** A file of the lone byte FF, and an empty file, which decodes and
    which the dep5 reader refuses. *)
Lemma from_file_decode_error_witness :
  (@ReuseDep5.from_file _ Sample.env (py "bad/latin1")
   = Raise unicode_decode_error
   /\ @ReuseTOML.from_file _ Sample.env (py "bad/latin1")
      = Raise unicode_decode_error)
  /\ @ReuseDep5.from_file _ Sample.env (py "empty")
     = Raise (Exn GlobalLicensingParseError
                  [AMsg (py "no paragraphs in input")]).
Proof.
  split.
  - destruct (@from_file_decode_error _ Sample.env (py "bad/latin1")
                [Byte.xff] eq_refl) as [Hbad [Hpass _]].
    destruct (Hbad eq_refl) as [Ht _]; split; [|exact Ht].
    apply Hpass; reflexivity.
  - destruct (@from_file_decode_error _ Sample.env (py "empty")
                [] eq_refl) as [_ [_ Hwrap]].
    apply (Hwrap (Exn DebianError [AMsg (py "no paragraphs in input")]));
      reflexivity.
Defined.

(** C4 fails as stated: the file [Sample.late_ff] is not UTF-8, its FF
    lies in the second block of the stream, and the dep5 reader refuses
    its first line before that block is decoded: [ReuseDep5.from_file]
    raises [GlobalLicensingParseError]. *)
Lemma ReuseDep5_from_file_late_decode_error :
  utf8_decode (map Byte.to_N Sample.late_ff) = None
  /\ @ReuseDep5.from_file _ Sample.env (py "bad/late")
     = Raise (Exn GlobalLicensingParseError
                  [AMsg (py "line is not in deb822 format")]).
Proof. split; vm_compute; reflexivity. Qed.

(** C6, amended.  [ReuseDep5.reuse_info_of] looks up the posix form of
    the path.  Without a paragraph for it, it returns the empty
    [ReuseInfo], and raises nothing.  With a paragraph whose license
    synopsis parses to [e], it returns the set of [e] alone and, for the
    copyright lines, the set of the stripped lines of the paragraph's
    copyright, none of which begins or ends with white space.  With a
    paragraph whose license synopsis the parser refuses, it returns
    nothing: it raises the exception of the parser. *)
Theorem ReuseDep5_reuse_info_of_spec `{Environment}
  (self : ReuseDep5.t) (path : str) :
  (Debian.find_files_paragraph (ReuseDep5.dep5_copyright self) (as_posix path)
   = None ->
   ReuseDep5.reuse_info_of self path = Ok ReuseInfo.empty
   /\ ReuseInfo.spdx_expressions ReuseInfo.empty = []
   /\ ReuseInfo.copyright_lines ReuseInfo.empty = [])
  /\ (forall row e,
        Debian.find_files_paragraph (ReuseDep5.dep5_copyright self)
                                    (as_posix path) = Some row ->
        licensing_parse (PStr (Debian.synopsis (Debian.license row))) = Ok e ->
        hashable e = true ->
        exists info,
          ReuseDep5.reuse_info_of self path = Ok info
          /\ ReuseInfo.spdx_expressions info = [e]
          /\ ReuseInfo.path info = Some (as_posix path)
          /\ distinct (ReuseInfo.copyright_lines info)
          /\ (forall v,
                In v (ReuseInfo.copyright_lines info) <->
                exists line,
                  In line (splitlines (Debian.copyright row))
                  /\ v = PStr (strip line))
          /\ (forall v,
                In v (ReuseInfo.copyright_lines info) ->
                exists s, v = PStr s /\ stripped s))
  /\ (forall row x,
        Debian.find_files_paragraph (ReuseDep5.dep5_copyright self)
                                    (as_posix path) = Some row ->
        licensing_parse (PStr (Debian.synopsis (Debian.license row)))
        = Raise x ->
        ReuseDep5.reuse_info_of self path = Raise x).
Proof.
  unfold ReuseDep5.reuse_info_of; split; [|split].
  3:{ intros row x -> Hx; simpl; rewrite Hx; reflexivity. }
  - intros ->; auto.
  - intros row e -> He Hh; simpl; rewrite He; simpl.
    assert (Ee : set_of [e] = Ok [e])
      by (unfold set_of; simpl; unfold set_add; rewrite Hh; reflexivity).
    destruct (set_of_strs (map strip (splitlines (Debian.copyright row))))
      as [s [Es [Hd Hs]]].
    rewrite map_map in Es; rewrite Ee, Es; simpl.
    exists (ReuseInfo.make [e] s (Some (as_posix path)) (Some DEP5)
                           (Some (py ".reuse/dep5"))).
    simpl; repeat split; auto.
    + intros Hv; apply Hs in Hv; destruct Hv as [x [Hx ->]].
      apply in_map_iff in Hx; destruct Hx as [line [<- Hl]]; eauto.
    + intros [line [Hl ->]]; apply Hs; exists (strip line); split; auto.
      apply in_map; exact Hl.
    + intros v Hv; apply Hs in Hv; destruct Hv as [x [Hx ->]].
      apply in_map_iff in Hx; destruct Hx as [line [<- Hl]].
      exists (strip line); split; [reflexivity | apply strip_stripped].
Qed.

(** A path outside the table, and "./src//a.c", which is looked up as
    "src/a.c" and has two copyright lines. *)
Lemma ReuseDep5_reuse_info_of_spec_witness :
  @ReuseDep5.reuse_info_of _ Sample.env
    (ReuseDep5.make (py ".reuse/dep5") Sample.table) (py "doc/a.c")
  = Ok ReuseInfo.empty
  /\ exists info,
       @ReuseDep5.reuse_info_of _ Sample.env
         (ReuseDep5.make (py ".reuse/dep5") Sample.table) (py "./src//a.c")
       = Ok info
       /\ ReuseInfo.path info = Some (py "src/a.c")
       /\ In (PStr (py "2020 Jane Doe")) (ReuseInfo.copyright_lines info)
       /\ In (PStr (py "2021 John Roe")) (ReuseInfo.copyright_lines info).
Proof.
  split.
  - apply (@ReuseDep5_reuse_info_of_spec _ Sample.env
             (ReuseDep5.make (py ".reuse/dep5") Sample.table) (py "doc/a.c")).
    reflexivity.
  - destruct (@ReuseDep5_reuse_info_of_spec _ Sample.env
                (ReuseDep5.make (py ".reuse/dep5") Sample.table)
                (py "./src//a.c")) as [_ Hrow].
    destruct (proj1 Hrow Sample.row _ eq_refl eq_refl eq_refl)
      as [info [E [_ [Hp [_ [Hl _]]]]]].
    exists info; repeat split; auto.
    + apply Hl; exists (py "2020 Jane Doe "); split;
        [left|]; reflexivity.
    + apply Hl; exists (py "  2021 John Roe"); split;
        [right; left|]; reflexivity.
Defined.

(** C6 fails as stated: for a path that has a paragraph, whose license
    is "MIT OR", [reuse_info_of] returns no [ReuseInfo]; it raises the
    [ExpressionError] of the parser. *)
Lemma ReuseDep5_reuse_info_of_unparsed_license :
  Debian.find_files_paragraph Sample.bad_table (as_posix (py "src/a.c"))
  <> None
  /\ (exists x,
        @ReuseDep5.reuse_info_of _ Sample.env
          (ReuseDep5.make (py ".reuse/dep5") Sample.bad_table) (py "src/a.c")
        = Raise x
        /\ exc_type x = ExpressionError)
  /\ ~ exists info,
        @ReuseDep5.reuse_info_of _ Sample.env
          (ReuseDep5.make (py ".reuse/dep5") Sample.bad_table) (py "src/a.c")
        = Ok info.
Proof.
  split; [discriminate|]; split.
  - eexists; split; reflexivity.
  - intros [info E]; discriminate E.
Qed.

(** C9.  A [ReuseInfo] that [ReuseDep5.reuse_info_of] returns and that is
    not the empty one carries the source type [DEP5] and the source path
    ".reuse/dep5", and it is the same whatever the [source] of the
    document. *)
Theorem ReuseDep5_reuse_info_source `{Environment}
  (self : ReuseDep5.t) (path : str) (info : ReuseInfo.t) :
  ReuseDep5.reuse_info_of self path = Ok info ->
  info <> ReuseInfo.empty ->
  ReuseInfo.source_type info = Some DEP5
  /\ ReuseInfo.source_path info = Some (py ".reuse/dep5")
  /\ forall source',
       ReuseDep5.reuse_info_of
         (ReuseDep5.make source' (ReuseDep5.dep5_copyright self)) path
       = Ok info.
Proof.
  unfold ReuseDep5.reuse_info_of; simpl; intros E Hne.
  destruct (Debian.find_files_paragraph (ReuseDep5.dep5_copyright self)
                                        (as_posix path)) as [row|].
  - repeat split; [| |intros _; exact E];
      bind_inv E; injection E as <-; reflexivity.
  - injection E as <-; contradiction Hne; reflexivity.
Qed.

(** The sample table under another [source]. *)
Lemma ReuseDep5_reuse_info_source_witness :
  exists info,
    @ReuseDep5.reuse_info_of _ Sample.env
      (ReuseDep5.make (py "/home/jane/project/.reuse/dep5") Sample.table)
      (py "src/a.c") = Ok info
    /\ ReuseInfo.source_type info = Some DEP5
    /\ ReuseInfo.source_path info = Some (py ".reuse/dep5").
Proof.
  eexists; split; [reflexivity|].
  destruct (@ReuseDep5_reuse_info_source _ Sample.env
              (ReuseDep5.make (py "/home/jane/project/.reuse/dep5")
                              Sample.table)
              (py "src/a.c") _ eq_refl) as [Ht [Hp _]];
    [discriminate | split; assumption].
Defined.

(** ** Further properties of the validators and converters *)

Lemma check_items_spec `{Environment} (attribute : str) (type_ : pytype)
  (items : list pyval) :
  (forallb (fun v => isinstance v type_) items = true ->
   check_items attribute type_ items = Ok tt)
  /\ (forallb (fun v => isinstance v type_) items = false ->
      exists msg item,
        In item items /\ isinstance item type_ = false
        /\ check_items attribute type_ items =
           Raise (Exn TypeError [AMsg msg; AAttribute attribute; AType type_;
                                 AValue item])).
Proof.
  induction items as [|v items [IHok IHbad]]; simpl.
  - split; [reflexivity | discriminate].
  - destruct (isinstance v type_) eqn:E; simpl; split; try discriminate.
    + exact IHok.
    + intros Hb; destruct (IHbad Hb) as [msg [item [Hin [Hi Hr]]]].
      exists msg, item; auto.
    + intros _; eexists; exists v; repeat split; auto.
Qed.

Lemma validate_collection_cases `{Environment} (attribute : str)
  (value : pyval) (iterable_type type_ : pytype) :
  (_validate_collection_of_type attribute value iterable_type type_ = Ok tt
   <-> isinstance value iterable_type = true
       /\ exists items,
            iterate value = Ok items
            /\ forallb (fun v => isinstance v type_) items = true)
  /\ (forall e,
        _validate_collection_of_type attribute value iterable_type type_
        = Raise e ->
        exc_type e = TypeError).
Proof.
  unfold _validate_collection_of_type.
  destruct (isinstance value iterable_type); simpl.
  - destruct (iterate value) as [items|e0] eqn:Eit; simpl.
    + destruct (check_items_spec attribute type_ items) as [Hok Hbad].
      destruct (forallb (fun v => isinstance v type_) items) eqn:Ef.
      * rewrite (Hok eq_refl); split; [|discriminate].
        split; [intros _; split; eauto | reflexivity].
      * destruct (Hbad eq_refl) as [msg [item [_ [_ Hr]]]]; rewrite Hr.
        split; [|intros e E; injection E as <-; reflexivity].
        split; [discriminate|].
        intros [_ [items' [E Hf]]]; injection E as <-; congruence.
    + split.
      * split; [discriminate | intros [_ [items [E _]]]; discriminate].
      * intros e E; injection E as <-.
        destruct value; simpl in Eit; try discriminate;
          injection Eit as <-; reflexivity.
  - split; [|intros e E; injection E as <-; reflexivity].
    split; [discriminate | intros [E _]; discriminate].
Qed.

(** [_validate_collection_of_type] returns exactly on a value of the
    collection type whose items are all of the item type; it raises
    nothing but [TypeError]. *)
Theorem validate_collection_of_type_spec `{Environment} (attribute : str)
  (value : pyval) (iterable_type type_ : pytype) :
  (_validate_collection_of_type attribute value iterable_type type_ = Ok tt
   <-> isinstance value iterable_type = true
       /\ exists items,
            iterate value = Ok items
            /\ forallb (fun v => isinstance v type_) items = true)
  /\ (forall e,
        _validate_collection_of_type attribute value iterable_type type_
        = Raise e ->
        exc_type e = TypeError).
Proof. exact (@validate_collection_cases _ _ attribute value iterable_type type_). Qed.

(** Whatever [_str_to_set] raises is a [TypeError]. *)
Lemma _str_to_set_raise `{ExprLib} (value : pyval) e :
  _str_to_set value = Raise e -> exc_type e = TypeError.
Proof.
  assert (Hu : forall l acc e, set_update acc l = Raise e ->
                               exc_type e = TypeError).
  { induction l as [|v l IH]; intros acc e0; simpl; [discriminate|].
    unfold set_add; destruct (hashable v); simpl;
      [apply IH | intros E; injection E as <-; reflexivity]. }
  unfold _str_to_set, set_of.
  destruct (isinstance value T_str); [|destruct (has_iter value) eqn:Hi].
  - destruct (set_update [] [value]) eqn:E; simpl; [discriminate|].
    intros E'; injection E' as <-; exact (Hu _ _ _ E).
  - destruct (iterate value) as [items|e0] eqn:Eit; simpl.
    + destruct (set_update [] items) eqn:E; simpl; [discriminate|].
      intros E'; injection E' as <-; exact (Hu _ _ _ E).
    + destruct value; discriminate.
  - destruct (set_update [] [value]) eqn:E; simpl; [discriminate|].
    intros E'; injection E' as <-; exact (Hu _ _ _ E).
Qed.

(** The set [_str_to_set] returns: its elements are hashable and
    distinct. *)
Lemma set_update_hashable `{ExprLib} (l acc s : list pyval) :
  set_update acc l = Ok s ->
  forallb hashable acc = true -> forallb hashable s = true.
Proof.
  revert acc; induction l as [|v l IH]; intros acc; simpl.
  - intros E; injection E as <-; auto.
  - unfold set_add; destruct (hashable v) eqn:Hv; simpl; [|discriminate].
    intros E Hacc; apply (IH _ E).
    destruct (set_mem v acc); [exact Hacc|].
    rewrite forallb_app; simpl; rewrite Hacc, Hv; reflexivity.
Qed.

Lemma set_update_distinct `{ExprLib} (l acc s : list pyval) :
  set_update acc l = Ok s -> distinct acc -> distinct s.
Proof.
  revert acc; induction l as [|v l IH]; intros acc; simpl.
  - intros E; injection E as <-; auto.
  - unfold set_add; destruct (hashable v) eqn:Hv; simpl; [|discriminate].
    intros E Hacc; apply (IH _ E).
    destruct (set_mem v acc) eqn:Em; [exact Hacc|].
    apply distinct_snoc; assumption.
Qed.

(** Adding the elements a set already has changes nothing. *)
Lemma set_update_absorb `{ExprLib} (l acc : list pyval) :
  forallb hashable l = true ->
  (forall v, In v l -> set_mem v acc = true) ->
  set_update acc l = Ok acc.
Proof.
  induction l as [|v l IH]; simpl; intros Hh Hin; [reflexivity|].
  apply andb_true_iff in Hh; destruct Hh as [Hv Hl].
  unfold set_add; rewrite Hv, (Hin v (or_introl eq_refl)); simpl.
  apply IH; auto.
Qed.

(** Building a set from a list that is one already gives the list. *)
Lemma set_update_distinct_id `{ExprLib} (l acc : list pyval) :
  forallb hashable l = true -> distinct (acc ++ l) ->
  set_update acc l = Ok (acc ++ l).
Proof.
  revert acc; induction l as [|v l IH]; intros acc Hh Hd; simpl.
  - rewrite app_nil_r; reflexivity.
  - simpl in Hh; apply andb_true_iff in Hh; destruct Hh as [Hv Hl].
    assert (Hm : set_mem v acc = false).
    { unfold distinct in Hd; clear - Hd.
      induction acc as [|a acc IHa]; simpl in *; [reflexivity|].
      inversion Hd as [|? ? Ha Hrest]; subst.
      apply orb_false_iff; split; [|apply IHa; exact Hrest].
      rewrite py_eqb_sym.
      rewrite Forall_forall in Ha; apply Ha, in_or_app; right; left.
      reflexivity. }
    unfold set_add; rewrite Hv, Hm; simpl.
    replace (acc ++ v :: l) with ((acc ++ [v]) ++ l)
      by (rewrite <- app_assoc; reflexivity).
    apply IH; [exact Hl|].
    rewrite <- app_assoc; exact Hd.
Qed.

(** Takes the first step of a successful sequence in [E]. *)
Ltac step E x Hx :=
  match type of E with
  | bind ?r _ = Ok _ =>
    destruct r as [x|] eqn:Hx; cbn [bind] in E; [|discriminate E]
  end.

Lemma validate_set_ok `{Environment} (attribute : str) (s : list pyval)
  (type_ : pytype) :
  _validate_collection_of_type attribute (PSet s) T_set type_ = Ok tt
  <-> forallb (fun v => isinstance v type_) s = true.
Proof.
  destruct (validate_collection_cases attribute (PSet s) T_set type_)
    as [Hiff _]; rewrite Hiff; simpl; split.
  - intros [_ [items [E Hf]]]; injection E as <-; exact Hf.
  - intros Hf; split; eauto.
Qed.

Lemma _str_to_set_of_expr_is_set `{Environment} (value r : pyval) :
  _str_to_set_of_expr value = Ok r -> exists s, r = PSet s.
Proof.
  unfold _str_to_set_of_expr; intros E; bind_inv E; injection E as <-; eauto.
Qed.

Lemma from_dict_ok_iff `{Environment}
  (values : dict) (item : AnnotationsItem.t) :
  AnnotationsItem.from_dict values = Ok item <->
  exists ps cs es,
    _str_to_set (dict_get (py "path") PNone values) = Ok (PSet ps)
    /\ _str_to_set (dict_get (py "SPDX-FileCopyrightText") PNone values)
       = Ok (PSet cs)
    /\ _str_to_set_of_expr
         (dict_get (py "SPDX-License-Identifier") PNone values) = Ok (PSet es)
    /\ forallb (fun v => isinstance v T_str) ps = true
    /\ set_mem (dict_get (py "precedence") PNone values) precedence_args = true
    /\ forallb (fun v => isinstance v T_str) cs = true
    /\ forallb (fun v => isinstance v T_Expression) es = true
    /\ item = AnnotationsItem.make (PSet ps)
                (dict_get (py "precedence") PNone values) (PSet cs) (PSet es).
Proof.
  unfold AnnotationsItem.from_dict, AnnotationsItem.init; split.
  - intros E.
    step E ps Hps; step E cs Hcs; step E es Hes.
    destruct (_str_to_set_is_set _ Hps) as [ps' ->].
    destruct (_str_to_set_is_set _ Hcs) as [cs' ->].
    destruct (_str_to_set_of_expr_is_set _ Hes) as [es' ->].
    step E u1 Hv1; step E u2 Hv2; step E u3 Hv3; step E u4 Hv4.
    destruct u1, u3, u4; injection E as <-.
    exists ps', cs', es'; repeat split; auto.
    + apply (validate_set_ok (py "paths")); exact Hv1.
    + unfold _validate_literal in Hv2.
      destruct (set_mem _ precedence_args); [reflexivity | discriminate].
    + apply (validate_set_ok (py "copyright_lines")); exact Hv3.
    + apply (validate_set_ok (py "spdx_expressions")); exact Hv4.
  - intros [ps [cs [es [Hps [Hcs [Hes [Hp [Hm [Hc [He ->]]]]]]]]]].
    rewrite Hps, Hcs, Hes; cbn [bind].
    unfold _validate_set_of_str, _validate_set_of_expr, _validate_literal.
    rewrite (proj2 (validate_set_ok (py "paths") ps T_str) Hp).
    rewrite (proj2 (validate_set_ok (py "copyright_lines") cs T_str) Hc).
    rewrite (proj2 (validate_set_ok (py "spdx_expressions") es T_Expression)
                   He).
    rewrite Hm; reflexivity.
Qed.

(** [AnnotationsItem.from_dict] accepts a record exactly when the three
    converters return, the paths and the copyright lines are strings, the
    parsed licenses are expressions and the precedence is one of the three
    literals; the item then holds the converted values and the precedence
    as it was given. *)
Theorem from_dict_accepts_iff `{Environment}
  (values : dict) (item : AnnotationsItem.t) :
  AnnotationsItem.from_dict values = Ok item <->
  exists ps cs es,
    _str_to_set (dict_get (py "path") PNone values) = Ok (PSet ps)
    /\ _str_to_set (dict_get (py "SPDX-FileCopyrightText") PNone values)
       = Ok (PSet cs)
    /\ _str_to_set_of_expr
         (dict_get (py "SPDX-License-Identifier") PNone values) = Ok (PSet es)
    /\ forallb (fun v => isinstance v T_str) ps = true
    /\ set_mem (dict_get (py "precedence") PNone values) precedence_args = true
    /\ forallb (fun v => isinstance v T_str) cs = true
    /\ forallb (fun v => isinstance v T_Expression) es = true
    /\ item = AnnotationsItem.make (PSet ps)
                (dict_get (py "precedence") PNone values) (PSet cs) (PSet es).
Proof. exact (@from_dict_ok_iff _ _ values item). Qed.

(** The sample annotation. *)
Lemma from_dict_accepts_iff_witness :
  exists item,
    @AnnotationsItem.from_dict _ Sample.env Sample.annotation = Ok item
    /\ AnnotationsItem.precedence item = PStr (py "aggregate").
Proof.
  eexists; split.
  - apply (proj2 (@from_dict_accepts_iff _ Sample.env Sample.annotation _)).
    do 3 eexists; repeat split; reflexivity.
  - reflexivity.
Defined.

(** The precedence of a constructed item is "aggregate", "file" or
    "toml". *)
Theorem from_dict_precedence_valid `{Environment}
  (values : dict) (item : AnnotationsItem.t) :
  AnnotationsItem.from_dict values = Ok item ->
  AnnotationsItem.precedence item = PStr (py "aggregate")
  \/ AnnotationsItem.precedence item = PStr (py "file")
  \/ AnnotationsItem.precedence item = PStr (py "toml").
Proof.
  intros E; apply from_dict_ok_iff in E.
  destruct E as [ps [cs [es [_ [_ [_ [_ [Hm [_ [_ ->]]]]]]]]]]; simpl.
  apply precedence_mem_spec; exact Hm.
Qed.

Lemma from_dict_precedence_valid_witness :
  exists item,
    @AnnotationsItem.from_dict _ Sample.env Sample.annotation = Ok item
    /\ (AnnotationsItem.precedence item = PStr (py "aggregate")
        \/ AnnotationsItem.precedence item = PStr (py "file")
        \/ AnnotationsItem.precedence item = PStr (py "toml")).
Proof.
  eexists; split; [reflexivity|].
  exact (@from_dict_precedence_valid _ Sample.env Sample.annotation _ eq_refl).
Defined.

(** What the loop of [_str_to_set_of_expr] raises is raised by the parser
    or is the [TypeError] of [set.add]. *)
Lemma parse_each_raise_kind `{Environment} (l acc : list pyval) e :
  parse_each acc l = Raise e ->
  exc_type e = TypeError
  \/ exists v, In v l /\ licensing_parse v = Raise e.
Proof.
  revert acc; induction l as [|v l IH]; intros acc; simpl; [discriminate|].
  destruct (licensing_parse v) as [r|e0] eqn:Ev; cbn [bind].
  - unfold set_add; destruct (hashable r); cbn [bind].
    + intros E; destruct (IH _ E) as [Ht|[v' [Hv' Ev']]]; [left; exact Ht|].
      right; exists v'; split; [right|]; assumption.
    + intros E; injection E as <-; left; reflexivity.
  - intros E; injection E as <-; right; exists v; split; [left|]; auto.
Qed.

Lemma _str_to_set_of_expr_raise `{Environment} (value : pyval) e :
  _str_to_set_of_expr value = Raise e ->
  exc_type e = TypeError \/ exists v, licensing_parse v = Raise e.
Proof.
  unfold _str_to_set_of_expr.
  destruct (_str_to_set value) as [r|e0] eqn:Es; cbn [bind].
  - destruct (_str_to_set_is_set _ Es) as [s ->]; simpl.
    destruct (parse_each [] s) as [r|e0] eqn:Ep; cbn [bind]; [discriminate|].
    intros E; injection E as <-.
    destruct (parse_each_raise_kind _ _ Ep) as [Ht|[v [_ Ev]]]; eauto.
  - intros E; injection E as <-; left; exact (_str_to_set_raise _ Es).
Qed.

Lemma from_dict_raise_cases `{Environment} (values : dict) e :
  AnnotationsItem.from_dict values = Raise e ->
  exc_type e = TypeError
  \/ exc_type e = ValueError
  \/ exists v, licensing_parse v = Raise e.
Proof.
  unfold AnnotationsItem.from_dict, AnnotationsItem.init.
  destruct (_str_to_set (dict_get (py "path") PNone values))
    as [ps|e0] eqn:Hps; cbn [bind];
    [|intros E; injection E as <-; left; exact (_str_to_set_raise _ Hps)].
  destruct (_str_to_set (dict_get (py "SPDX-FileCopyrightText") PNone values))
    as [cs|e0] eqn:Hcs; cbn [bind];
    [|intros E; injection E as <-; left; exact (_str_to_set_raise _ Hcs)].
  destruct (_str_to_set_of_expr
              (dict_get (py "SPDX-License-Identifier") PNone values))
    as [es|e0] eqn:Hes; cbn [bind].
  2:{ intros E; injection E as <-.
      destruct (_str_to_set_of_expr_raise _ Hes); auto. }
  unfold _validate_set_of_str, _validate_set_of_expr.
  destruct (_validate_collection_of_type (py "paths") ps T_set T_str)
    as [u|e0] eqn:Hv1; cbn [bind].
  2:{ intros E; injection E as <-; left.
      exact (proj2 (validate_collection_cases _ _ _ _) _ Hv1). }
  unfold _validate_literal at 1.
  destruct (set_mem _ precedence_args); cbn [negb bind];
    [|intros E; injection E as <-; right; left; reflexivity].
  destruct (_validate_collection_of_type (py "copyright_lines") cs T_set T_str)
    as [u'|e0] eqn:Hv3; cbn [bind].
  2:{ intros E; injection E as <-; left.
      exact (proj2 (validate_collection_cases _ _ _ _) _ Hv3). }
  destruct (_validate_collection_of_type (py "spdx_expressions") es T_set
                                         T_Expression)
    as [u''|e0] eqn:Hv4; cbn [bind]; [discriminate|].
  intros E; injection E as <-; left.
  exact (proj2 (validate_collection_cases _ _ _ _) _ Hv4).
Qed.

(** An exception of [AnnotationsItem.from_dict] is a [TypeError], the
    [ValueError] of the precedence, or an exception of the license parser:
    the module raises no [GlobalLicensingParseError] of its own here. *)
Theorem from_dict_raise_kind `{Environment} (values : dict) e :
  AnnotationsItem.from_dict values = Raise e ->
  exc_type e = TypeError
  \/ exc_type e = ValueError
  \/ exists v, licensing_parse v = Raise e.
Proof. exact (@from_dict_raise_cases _ _ values e). Qed.

(** The sample annotation with a list among its paths. *)
Lemma from_dict_raise_kind_witness :
  exists e,
    @AnnotationsItem.from_dict _ Sample.env
      (Sample.dict_set (py "path") (PList [PList []]) Sample.annotation)
    = Raise e
    /\ (exc_type e = TypeError \/ exc_type e = ValueError
        \/ exists v, Sample.parse v = Raise e).
Proof.
  eexists; split; [reflexivity|].
  exact (@from_dict_raise_kind _ Sample.env
           (Sample.dict_set (py "path") (PList [PList []]) Sample.annotation)
           _ eq_refl).
Defined.

(** A record without a "path" or without a "SPDX-FileCopyrightText" key
    is not accepted: [values.get] gives [None], the converter makes the
    set of [None], and [None] is not a string.  Nor is a record without a
    "SPDX-License-Identifier" key, when the parser makes no expression of
    [None]. *)
Theorem from_dict_missing_key `{Environment} (values : dict) :
  dict_lookup (py "path") values = None
  \/ dict_lookup (py "SPDX-FileCopyrightText") values = None
  \/ (dict_lookup (py "SPDX-License-Identifier") values = None
      /\ forall r, licensing_parse PNone = Ok r ->
                   isinstance r T_Expression = false) ->
  exists e, AnnotationsItem.from_dict values = Raise e.
Proof.
  intros Hmiss.
  destruct (AnnotationsItem.from_dict values) as [item|e] eqn:E; [|eauto].
  exfalso; apply from_dict_ok_iff in E.
  destruct E as [ps [cs [es [Hps [Hcs [Hes [Hp [_ [Hc [He _]]]]]]]]]].
  unfold dict_get in Hps, Hcs, Hes.
  destruct Hmiss as [Hm|[Hm|[Hm Hnone]]]; rewrite Hm in *.
  - injection Hps as <-; discriminate Hp.
  - injection Hcs as <-; discriminate Hc.
  - unfold _str_to_set_of_expr in Hes; simpl in Hes.
    destruct (licensing_parse PNone) as [r|] eqn:Ep; [|discriminate Hes].
    cbn [bind] in Hes; unfold set_add in Hes.
    destruct (hashable r); [|discriminate Hes].
    injection Hes as <-; simpl in He.
    rewrite (Hnone r eq_refl) in He; discriminate He.
Qed.

(** The sample annotation without its paths. *)
Lemma from_dict_missing_key_witness :
  exists e,
    @AnnotationsItem.from_dict _ Sample.env
      (filter (fun kv => negb (str_eqb (fst kv) (py "path")))
              Sample.annotation) = Raise e.
Proof.
  apply (@from_dict_missing_key _ Sample.env
           (filter (fun kv => negb (str_eqb (fst kv) (py "path")))
                   Sample.annotation)).
  left; reflexivity.
Defined.

Lemma set_update_app `{ExprLib} (l l' acc : list pyval) :
  set_update acc (l ++ l') = (s <- set_update acc l ;; set_update s l').
Proof.
  revert acc; induction l as [|v l IH]; intros acc; simpl; [reflexivity|].
  destruct (set_add acc v); cbn [bind]; [apply IH | reflexivity].
Qed.

Lemma set_update_ok_hashable `{ExprLib} (l acc s : list pyval) :
  set_update acc l = Ok s -> forallb hashable l = true.
Proof.
  revert acc; induction l as [|v l IH]; intros acc; simpl; [reflexivity|].
  unfold set_add; destruct (hashable v); cbn [bind]; [|discriminate].
  intros E; exact (IH _ E).
Qed.

Lemma _str_to_set_result `{ExprLib} (value : pyval) (s : list pyval) :
  _str_to_set value = Ok (PSet s) ->
  forallb hashable s = true /\ distinct s.
Proof.
  assert (Hu : forall l, set_update [] l = Ok s ->
                         forallb hashable s = true /\ distinct s).
  { intros l E; split;
      [exact (@set_update_hashable _ _ _ _ E eq_refl)
      | apply (@set_update_distinct _ _ _ _ E); constructor]. }
  unfold _str_to_set, set_of; intros E.
  destruct (isinstance value T_str); [|destruct (has_iter value)];
    bind_inv E; injection E as <-; eauto.
Qed.

(** [_str_to_set] leaves the set it has made as it is: a converted value
    can be converted again. *)
Theorem str_to_set_idempotent `{ExprLib} (value r : pyval) :
  _str_to_set value = Ok r -> _str_to_set r = Ok r.
Proof.
  intros E; destruct (_str_to_set_is_set _ E) as [s ->].
  destruct (_str_to_set_result _ E) as [Hh Hd].
  unfold _str_to_set, set_of; simpl.
  rewrite (set_update_distinct_id s [] Hh Hd); reflexivity.
Qed.

Lemma str_to_set_idempotent_witness :
  @_str_to_set Sample.expr_lib
    (PSet [PStr (py "src/*.py"); PStr (py "doc/**")])
  = Ok (PSet [PStr (py "src/*.py"); PStr (py "doc/**")]).
Proof.
  exact (@str_to_set_idempotent Sample.expr_lib
           (PList [PStr (py "src/*.py"); PStr (py "doc/**");
                   PStr (py "src/*.py")]) _ eq_refl).
Defined.

(** An element that occurs earlier in the list can be left out, wherever
    it comes again: the set, or the exception, is that of the list without
    it. *)
Theorem str_to_set_repeated `{ExprLib} (l1 l2 : list pyval) (v : pyval) :
  In v l1 ->
  _str_to_set (PList (l1 ++ v :: l2)) = _str_to_set (PList (l1 ++ l2)).
Proof.
  intros Hv; unfold _str_to_set, set_of; simpl.
  rewrite !set_update_app.
  destruct (set_update [] l1) as [s|e] eqn:E; cbn [bind]; [|reflexivity].
  assert (Hh : forallb hashable l1 = true)
    by exact (@set_update_ok_hashable _ _ _ _ E).
  destruct (set_update_ok l1 [] Hh) as [s' [E' [_ [_ [Hin _]]]]].
  rewrite E in E'; injection E' as <-.
  simpl; unfold set_add.
  rewrite forallb_forall in Hh; rewrite (Hh v Hv), (Hin v Hv); reflexivity.
Qed.

(** [a; a; b] and [a; b]. *)
Lemma str_to_set_repeated_witness :
  @_str_to_set Sample.expr_lib
    (PList [PStr (py "a"); PStr (py "a"); PStr (py "b")])
  = @_str_to_set Sample.expr_lib (PList [PStr (py "a"); PStr (py "b")]).
Proof.
  apply (@str_to_set_repeated Sample.expr_lib [PStr (py "a")]
           [PStr (py "b")] (PStr (py "a"))).
  left; reflexivity.
Defined.

(** A single string is parsed as one expression: the result is the set of
    its parse, or the exception of the parser. *)
Theorem str_to_set_of_expr_single `{Environment} (s : str) :
  (forall e, licensing_parse (PStr s) = Ok e -> hashable e = true ->
             _str_to_set_of_expr (PStr s) = Ok (PSet [e]))
  /\ (forall x, licensing_parse (PStr s) = Raise x ->
                _str_to_set_of_expr (PStr s) = Raise x).
Proof.
  unfold _str_to_set_of_expr; simpl; split.
  - intros e -> Hh; cbn [bind]; unfold set_add; rewrite Hh; reflexivity.
  - intros x ->; reflexivity.
Qed.

Lemma str_to_set_of_expr_single_witness :
  @_str_to_set_of_expr _ Sample.env (PStr (py "MIT OR Apache-2.0"))
  = Ok (PSet [@PExpr Sample.expr_lib (py "MIT OR Apache-2.0")])
  /\ @_str_to_set_of_expr _ Sample.env (PStr (py "MIT OR"))
     = Raise (Exn ExpressionError [AMsg (py "Invalid expression")]).
Proof.
  split.
  - apply (proj1 (@str_to_set_of_expr_single _ Sample.env
                    (py "MIT OR Apache-2.0"))); reflexivity.
  - apply (proj2 (@str_to_set_of_expr_single _ Sample.env (py "MIT OR")));
      reflexivity.
Defined.

(** ** The log of [_str_to_set_of_expr] *)

Lemma parse_each_logged_snd `{Environment} (l acc : list pyval) :
  snd (parse_each_logged acc l) = parse_each acc l.
Proof.
  revert acc; induction l as [|v l IH]; intros acc; simpl; [reflexivity|].
  destruct (licensing_parse v) as [r|e]; cbn [bind]; [|reflexivity].
  destruct (set_add acc r); cbn [bind]; [apply IH | reflexivity].
Qed.

Lemma parse_each_logged_log `{Environment} (l acc : list pyval) :
  match parse_each_logged acc l with
  | (logged, Ok _) => logged = []
  | (logged, Raise error) =>
    if catches ExpressionError error || catches ParseError error
    then exists expression, logged = [expression] /\ In expression l
    else logged = []
  end.
Proof.
  revert acc; induction l as [|v l IH]; intros acc; simpl; [reflexivity|].
  destruct (e <- licensing_parse v ;; set_add acc e) as [acc'|error].
  - specialize (IH acc'); destruct (parse_each_logged acc' l) as [lg [r|e]];
      [exact IH|].
    destruct (catches ExpressionError e || catches ParseError e); [|exact IH].
    destruct IH as [x [-> Hx]]; exists x; split; [reflexivity | right; exact Hx].
  - destruct (catches ExpressionError error || catches ParseError error);
      [|reflexivity].
    exists v; split; [reflexivity | left; reflexivity].
Qed.

(** [_str_to_set_of_expr] with its log returns and raises what it does
    without; it logs nothing when it returns or when the exception is of
    another class, and when the exception is an [ExpressionError] or a
    [ParseError] it logs once, for one expression. *)
Theorem str_to_set_of_expr_logged_spec `{Environment} (value : pyval) :
  snd (_str_to_set_of_expr_logged value) = _str_to_set_of_expr value
  /\ match _str_to_set_of_expr value with
     | Ok _ => fst (_str_to_set_of_expr_logged value) = []
     | Raise error =>
       if catches ExpressionError error || catches ParseError error
       then exists expression,
              fst (_str_to_set_of_expr_logged value) = [expression]
       else fst (_str_to_set_of_expr_logged value) = []
     end.
Proof.
  unfold _str_to_set_of_expr_logged, _str_to_set_of_expr.
  destruct (_str_to_set value) as [r|e] eqn:Es; cbn [bind].
  - destruct (iterate r) as [items|e] eqn:Ei; cbn [bind].
    + pose proof (parse_each_logged_snd items []) as Hs.
      pose proof (parse_each_logged_log items []) as Hl.
      destruct (parse_each_logged [] items) as [lg res]; simpl in Hs; subst res.
      simpl; split; [reflexivity|].
      destruct (parse_each [] items) as [s|e]; cbn [bind]; [exact Hl|].
      destruct (catches ExpressionError e || catches ParseError e);
        [|exact Hl].
      destruct Hl as [x [-> _]]; eauto.
    + destruct (_str_to_set_is_set _ Es) as [s ->]; discriminate Ei.
  - cbn [fst snd]; split; [reflexivity|].
    unfold catches; rewrite (_str_to_set_raise _ Es); reflexivity.
Qed.

(** ** Further properties of ReuseTOML *)

Lemma mapM_ok `{ExprLib} {A B} (f : A -> result B) (l : list A)
  (bs : list B) :
  mapM f l = Ok bs <-> Forall2 (fun a b => f a = Ok b) l bs.
Proof.
  revert bs; induction l as [|a l IH]; intros bs; simpl.
  - split; [intros E; injection E as <-; constructor|].
    intros Hf; inversion Hf; reflexivity.
  - split.
    + intros E; bind_inv E; injection E as <-.
      constructor; [assumption | apply IH; assumption].
    + intros Hf; inversion Hf as [|? b ? bs' Hab Hrest]; subst.
      rewrite Hab; cbn [bind].
      rewrite (proj2 (IH bs') Hrest); reflexivity.
Qed.

Lemma mapM_app `{ExprLib} {A B} (f : A -> result B) (l1 l2 : list A) :
  mapM f (l1 ++ l2)
  = (bs1 <- mapM f l1 ;; bs2 <- mapM f l2 ;; Ok (bs1 ++ bs2)).
Proof.
  induction l1 as [|a l1 IH]; simpl.
  - destruct (mapM f l2); reflexivity.
  - destruct (f a); cbn [bind]; [|reflexivity].
    rewrite IH; destruct (mapM f l1); cbn [bind]; [|reflexivity].
    destruct (mapM f l2); reflexivity.
Qed.

(** The exception of a loop is that of its first failing step. *)
Lemma mapM_first_failure `{ExprLib} {A B} (f : A -> result B)
  (l1 l2 : list A) (a : A) (bs : list B) e :
  mapM f l1 = Ok bs -> f a = Raise e -> mapM f (l1 ++ a :: l2) = Raise e.
Proof.
  intros Hok Hr; rewrite mapM_app, Hok; simpl; rewrite Hr; reflexivity.
Qed.

Lemma mapM_raise `{ExprLib} {A B} (f : A -> result B) (l : list A) e :
  mapM f l = Raise e -> exists a, In a l /\ f a = Raise e.
Proof.
  induction l as [|a l IH]; simpl; [discriminate|].
  destruct (f a) as [b|e0] eqn:Ea; cbn [bind].
  - destruct (mapM f l) as [bs|e1]; cbn [bind]; [discriminate|].
    intros E; injection E as <-.
    destruct (IH eq_refl) as [a' [Hin Hr]]; exists a'; auto.
  - intros E; injection E as <-; exists a; auto.
Qed.

Lemma ReuseTOML_from_dict_ok_iff `{Environment}
  (values : dict) (source : str) (t : ReuseTOML.t) :
  ReuseTOML.from_dict values source = Ok t <->
  exists annotation_dicts,
    iterate (dict_get (py "annotations") (PList []) values)
    = Ok annotation_dicts
    /\ Forall2 (fun a item => AnnotationsItem.from_dict_call a = Ok item)
               annotation_dicts (ReuseTOML.annotations t)
    /\ isinstance (dict_get (py "version") PNone values) T_int = true
    /\ ReuseTOML.source t = source
    /\ ReuseTOML.version t = dict_get (py "version") PNone values.
Proof.
  unfold ReuseTOML.from_dict, ReuseTOML.init, instance_of; split.
  - intros E; step E ds Hds; step E items Hitems.
    simpl in E.
    destruct (isinstance (dict_get (py "version") PNone values) T_int);
      [|discriminate E].
    injection E as <-; exists ds; repeat split; auto.
    apply mapM_ok; exact Hitems.
  - intros [ds [Hds [Hf [Hv [Hs Hver]]]]].
    rewrite Hds; cbn [bind]; rewrite (proj2 (mapM_ok _ _ _) Hf).
    simpl; rewrite Hv; simpl; destruct t; simpl in *; subst; reflexivity.
Qed.

(** [ReuseTOML.from_dict] accepts a record exactly when its
    "annotations" value can be iterated, [AnnotationsItem.from_dict]
    accepts each element, and the version is an int; the document then
    holds the items in the order of the elements, one for one, and the
    source and the version as they were given. *)
Theorem ReuseTOML_from_dict_accepts_iff `{Environment}
  (values : dict) (source : str) (t : ReuseTOML.t) :
  ReuseTOML.from_dict values source = Ok t <->
  exists annotation_dicts,
    iterate (dict_get (py "annotations") (PList []) values)
    = Ok annotation_dicts
    /\ Forall2 (fun a item => AnnotationsItem.from_dict_call a = Ok item)
               annotation_dicts (ReuseTOML.annotations t)
    /\ isinstance (dict_get (py "version") PNone values) T_int = true
    /\ ReuseTOML.source t = source
    /\ ReuseTOML.version t = dict_get (py "version") PNone values.
Proof. exact (@ReuseTOML_from_dict_ok_iff _ _ values source t). Qed.

(** A document of one annotation. *)
Lemma ReuseTOML_from_dict_accepts_iff_witness :
  exists t,
    @ReuseTOML.from_dict _ Sample.env
      [(py "version", PInt 1);
       (py "annotations", PList [PDict Sample.annotation])]
      (py "REUSE.toml") = Ok t
    /\ ReuseTOML.version t = PInt 1.
Proof.
  eexists; split; [reflexivity|].
  destruct (proj1 (@ReuseTOML_from_dict_accepts_iff _ Sample.env
                     [(py "version", PInt 1);
                      (py "annotations", PList [PDict Sample.annotation])]
                     (py "REUSE.toml") _) eq_refl)
    as [ds [_ [_ [_ [_ Hv]]]]].
  exact Hv.
Defined.

(** Without an "annotations" key the document has no annotation: the
    missing key is no error. *)
Theorem ReuseTOML_from_dict_no_annotations `{Environment}
  (values : dict) (source : str) :
  dict_lookup (py "annotations") values = None ->
  isinstance (dict_get (py "version") PNone values) T_int = true ->
  ReuseTOML.from_dict values source
  = Ok (ReuseTOML.make source (dict_get (py "version") PNone values) []).
Proof.
  intros Ha Hv; apply ReuseTOML_from_dict_ok_iff.
  exists []; unfold dict_get at 1; rewrite Ha; repeat split; auto.
Qed.

Lemma ReuseTOML_from_dict_no_annotations_witness :
  @ReuseTOML.from_dict _ Sample.env [(py "version", PInt 1)] (py "REUSE.toml")
  = Ok (ReuseTOML.make (py "REUSE.toml") (PInt 1) []).
Proof.
  apply (@ReuseTOML_from_dict_no_annotations _ Sample.env
           [(py "version", PInt 1)] (py "REUSE.toml")); reflexivity.
Defined.

(** The first annotation that [AnnotationsItem.from_dict] refuses decides:
    the document is refused with that exception, whatever the later
    annotations and whatever the version, which is looked at last. *)
Theorem ReuseTOML_from_dict_first_failure `{Environment}
  (values : dict) (source : str) (l1 l2 : list pyval) (a : pyval)
  (items : list AnnotationsItem.t) e :
  iterate (dict_get (py "annotations") (PList []) values)
  = Ok (l1 ++ a :: l2) ->
  mapM AnnotationsItem.from_dict_call l1 = Ok items ->
  AnnotationsItem.from_dict_call a = Raise e ->
  ReuseTOML.from_dict values source = Raise e.
Proof.
  intros Hit Hok Hr; unfold ReuseTOML.from_dict.
  rewrite Hit; cbn [bind].
  rewrite (mapM_first_failure _ l1 l2 a Hok Hr); reflexivity.
Qed.

(** A good annotation, then one without precedence, and no version. *)
Lemma ReuseTOML_from_dict_first_failure_witness :
  exists msg,
    @ReuseTOML.from_dict _ Sample.env
      [(py "annotations",
        PList [PDict Sample.annotation;
               PDict [(py "path", PStr (py "x"));
                      (py "SPDX-FileCopyrightText", PStr (py "c"));
                      (py "SPDX-License-Identifier", PStr (py "MIT"))]])]
      (py "REUSE.toml")
    = Raise (Exn ValueError [AMsg msg]).
Proof.
  eexists.
  apply (@ReuseTOML_from_dict_first_failure _ Sample.env
           [(py "annotations",
             PList [PDict Sample.annotation;
                    PDict [(py "path", PStr (py "x"));
                           (py "SPDX-FileCopyrightText", PStr (py "c"));
                           (py "SPDX-License-Identifier", PStr (py "MIT"))]])]
           (py "REUSE.toml") [PDict Sample.annotation] []
           (PDict [(py "path", PStr (py "x"));
                   (py "SPDX-FileCopyrightText", PStr (py "c"));
                   (py "SPDX-License-Identifier", PStr (py "MIT"))])
           _ _ eq_refl eq_refl).
  reflexivity.
Defined.

(** An "annotations" value of the wrong shape: a value that cannot be
    iterated raises [TypeError]; a table or a string that is not empty
    yields its keys or its characters, which have no [get], and raises
    [AttributeError]; an empty one passes for no annotation. *)
Theorem ReuseTOML_from_dict_annotations_shape `{Environment}
  (values : dict) (source : str) :
  (has_iter (dict_get (py "annotations") (PList []) values) = false ->
   exists args,
     ReuseTOML.from_dict values source = Raise (Exn TypeError args))
  /\ ((exists kv d,
         dict_get (py "annotations") (PList []) values = PDict (kv :: d))
      \/ (exists c s,
            dict_get (py "annotations") (PList []) values = PStr (c :: s)) ->
      exists args,
        ReuseTOML.from_dict values source = Raise (Exn AttributeError args))
  /\ (dict_get (py "annotations") (PList []) values = PDict []
      \/ dict_get (py "annotations") (PList []) values = PStr [] ->
      isinstance (dict_get (py "version") PNone values) T_int = true ->
      ReuseTOML.from_dict values source
      = Ok (ReuseTOML.make source (dict_get (py "version") PNone values) [])).
Proof.
  unfold ReuseTOML.from_dict; repeat split.
  - destruct (dict_get (py "annotations") (PList []) values);
      try discriminate; intros _; eexists; reflexivity.
  - intros [[kv [d ->]]|[c [s ->]]]; eexists; reflexivity.
  - intros [->| ->] Hv; simpl; unfold ReuseTOML.init, instance_of;
      simpl; rewrite Hv; reflexivity.
Qed.

(** [annotations = 3], and an [[annotations]] table written with single
    brackets. *)
Lemma ReuseTOML_from_dict_annotations_shape_witness :
  (exists args,
     @ReuseTOML.from_dict _ Sample.env
       [(py "version", PInt 1); (py "annotations", PInt 3)] (py "REUSE.toml")
     = Raise (Exn TypeError args))
  /\ exists args,
       @ReuseTOML.from_dict _ Sample.env
         [(py "version", PInt 1); (py "annotations", PDict Sample.annotation)]
         (py "REUSE.toml")
       = Raise (Exn AttributeError args).
Proof.
  split.
  - apply (proj1 (@ReuseTOML_from_dict_annotations_shape _ Sample.env
                    [(py "version", PInt 1); (py "annotations", PInt 3)]
                    (py "REUSE.toml"))); reflexivity.
  - apply (proj1 (proj2 (@ReuseTOML_from_dict_annotations_shape _ Sample.env
                           [(py "version", PInt 1);
                            (py "annotations", PDict Sample.annotation)]
                           (py "REUSE.toml")))).
    left; do 2 eexists; reflexivity.
Defined.

Lemma iterate_raise `{ExprLib} (v : pyval) e :
  iterate v = Raise e -> exc_type e = TypeError.
Proof. destruct v; simpl; try discriminate; intros E; injection E as <-;
         reflexivity. Qed.

(** An exception of [ReuseTOML.from_dict] is a [TypeError], a
    [ValueError], an [AttributeError] or an exception of the license
    parser. *)
Theorem ReuseTOML_from_dict_raise_kind `{Environment}
  (values : dict) (source : str) e :
  ReuseTOML.from_dict values source = Raise e ->
  exc_type e = TypeError \/ exc_type e = ValueError
  \/ exc_type e = AttributeError
  \/ exists v, licensing_parse v = Raise e.
Proof.
  unfold ReuseTOML.from_dict.
  destruct (iterate (dict_get (py "annotations") (PList []) values))
    as [ds|e0] eqn:Hit; cbn [bind];
    [|intros E; injection E as <-; left; exact (iterate_raise _ Hit)].
  destruct (mapM AnnotationsItem.from_dict_call ds) as [items|e0] eqn:Hm;
    cbn [bind].
  - unfold ReuseTOML.init, instance_of; simpl.
    destruct (isinstance (dict_get (py "version") PNone values) T_int);
      simpl; [discriminate|].
    intros E; injection E as <-; left; reflexivity.
  - intros E; injection E as <-.
    destruct (mapM_raise _ _ Hm) as [a [_ Ha]].
    destruct a; simpl in Ha;
      try (injection Ha as <-; right; right; left; reflexivity).
    destruct (from_dict_raise_cases _ Ha) as [Ht|[Hv|Hp]]; auto.
Qed.

(** A version that is a string. *)
Lemma ReuseTOML_from_dict_raise_kind_witness :
  exists e,
    @ReuseTOML.from_dict _ Sample.env [(py "version", PStr (py "1"))]
      (py "REUSE.toml") = Raise e
    /\ (exc_type e = TypeError \/ exc_type e = ValueError
        \/ exc_type e = AttributeError
        \/ exists v, Sample.parse v = Raise e).
Proof.
  eexists; split; [reflexivity|].
  exact (@ReuseTOML_from_dict_raise_kind _ Sample.env
           [(py "version", PStr (py "1"))] (py "REUSE.toml") _ eq_refl).
Defined.

(** [ReuseTOML.from_file] wraps nothing: its exception is that of opening
    the file, of decoding it, of [tomlkit.loads] on its text, or of
    [from_dict] on the document read. *)
Theorem ReuseTOML_from_file_raise `{Environment} (path : str) e :
  ReuseTOML.from_file path = Raise e ->
  path_open (as_posix path) = Raise e
  \/ (exists raw,
        path_open (as_posix path) = Ok raw
        /\ ((read_text raw = None /\ e = unicode_decode_error)
            \/ exists toml,
                 read_text raw = Some toml
                 /\ (tomlkit_loads toml = Raise e
                     \/ exists values,
                          tomlkit_loads toml = Ok values
                          /\ ReuseTOML.from_dict values path = Raise e))).
Proof.
  unfold ReuseTOML.from_file, ReuseTOML.from_toml, fp_read.
  destruct (path_open (as_posix path)) as [raw|e0]; cbn [bind];
    [|intros E; injection E as <-; left; reflexivity].
  intros E; right; exists raw; split; [reflexivity|].
  destruct (read_text raw) as [toml|]; cbn [bind] in E;
    [|injection E as <-; left; split; reflexivity].
  right; exists toml; split; [reflexivity|].
  destruct (tomlkit_loads toml) as [values|e0] eqn:El; cbn [bind] in E.
  - right; exists values; split; [reflexivity | exact E].
  - injection E as <-; left; reflexivity.
Qed.

(** A file that is not there. *)
Lemma ReuseTOML_from_file_raise_witness :
  exists e,
    @ReuseTOML.from_file _ Sample.env (py "nowhere/REUSE.toml") = Raise e
    /\ exc_type e = FileNotFoundError.
Proof.
  eexists; split; [reflexivity|].
  destruct (@ReuseTOML_from_file_raise _ Sample.env (py "nowhere/REUSE.toml")
              _ eq_refl) as [Hopen|[raw [Hopen _]]].
  - reflexivity.
  - discriminate Hopen.
Defined.

(** ** Further properties of ReuseDep5 *)



(** An exception of opening the file that is neither a [ValueError] nor
    a [debian.copyright.Error], [FileNotFoundError] for one, leaves both
    [from_file] as it is. *)
Theorem from_file_open_error `{Environment} (path : str) e :
  path_open (as_posix path) = Raise e ->
  catches ValueError e = false ->
  catches DebianError e = false ->
  from_file (T:=ReuseDep5.t) path = Raise e
  /\ from_file (T:=ReuseTOML.t) path = Raise e.
Proof.
  intros Hopen Hv Hd; simpl.
  unfold ReuseDep5.from_file, ReuseTOML.from_file.
  rewrite Hopen; cbn [bind]; split; [|reflexivity].
  assert (Hu : catches UnicodeDecodeError e = false).
  { unfold catches in *; destruct (exc_type e); try reflexivity;
      discriminate Hv. }
  rewrite Hu, Hv, Hd; reflexivity.
Qed.

Lemma from_file_open_error_witness :
  @ReuseDep5.from_file _ Sample.env (py "nowhere/dep5")
  = Raise (Exn FileNotFoundError [AMsg (py "nowhere/dep5")])
  /\ @ReuseTOML.from_file _ Sample.env (py "nowhere/dep5")
     = Raise (Exn FileNotFoundError [AMsg (py "nowhere/dep5")]).
Proof.
  apply (@from_file_open_error _ Sample.env (py "nowhere/dep5"));
    reflexivity.
Defined.

(** The [source] of a document read from a file: [ReuseDep5] keeps the
    path in the form of [str(Path(path))], [ReuseTOML] the path as it was
    given. *)
Theorem from_file_source `{Environment} (path : str) :
  (forall t, from_file (T:=ReuseDep5.t) path = Ok t ->
             source t = as_posix path)
  /\ (forall t, from_file (T:=ReuseTOML.t) path = Ok t -> source t = path).
Proof.
  simpl; unfold ReuseDep5.from_file, ReuseTOML.from_file,
    ReuseTOML.from_toml, ReuseTOML.from_dict, ReuseTOML.init; split.
  - intros t.
    match goal with
    | |- match ?body with _ => _ end = _ -> _ =>
      destruct body as [self|error] eqn:E
    end.
    + intros E'; injection E' as <-; bind_inv E; injection E as <-.
      reflexivity.
    + destruct (catches UnicodeDecodeError error); [discriminate|].
      destruct (catches DebianError error || catches ValueError error);
        discriminate.
  - intros t E; bind_inv E; injection E as <-; reflexivity.
Qed.

(** "./.reuse/dep5" read as a dep5 file and "./REUSE.toml" as a
    REUSE.toml. *)
Lemma from_file_source_witness :
  (exists t, @ReuseDep5.from_file _ Sample.env (py "./.reuse/dep5") = Ok t
             /\ ReuseDep5.source t = py ".reuse/dep5")
  /\ exists t, @ReuseTOML.from_file _ Sample.env (py "./REUSE.toml") = Ok t
               /\ ReuseTOML.source t = py "./REUSE.toml".
Proof.
  destruct (@from_file_source _ Sample.env (py "./.reuse/dep5")) as [Hd _].
  destruct (@from_file_source _ Sample.env (py "./REUSE.toml")) as [_ Ht].
  split; eexists; (split; [vm_compute; reflexivity|]).
  - exact (Hd _ eq_refl).
  - exact (Ht _ eq_refl).
Defined.

(** [ReuseDep5.reuse_info_of] returns the empty [ReuseInfo] exactly for a
    path without a paragraph. *)
Theorem ReuseDep5_reuse_info_of_empty_iff `{Environment}
  (self : ReuseDep5.t) (path : str) :
  ReuseDep5.reuse_info_of self path = Ok ReuseInfo.empty <->
  Debian.find_files_paragraph (ReuseDep5.dep5_copyright self) (as_posix path)
  = None.
Proof.
  unfold ReuseDep5.reuse_info_of.
  destruct (Debian.find_files_paragraph (ReuseDep5.dep5_copyright self)
                                        (as_posix path)) as [row|].
  - split; [|discriminate].
    intros E; bind_inv E; discriminate E.
  - split; reflexivity.
Qed.



(** ** Lines and paths *)

Lemma lstrip_incl (s : str) (c : N) : In c (lstrip s) -> In c s.
Proof.
  induction s as [|d s IH]; simpl; [auto|].
  destruct (is_space d); simpl; auto.
Qed.

Lemma strip_incl (s : str) (c : N) : In c (strip s) -> In c s.
Proof.
  unfold strip; intros Hc.
  apply in_rev, lstrip_incl, in_rev, lstrip_incl in Hc; exact Hc.
Qed.

Lemma splitlines_from_no_break (s cur line : str) :
  (forall c, In c cur -> is_linebreak c = false) ->
  In line (splitlines_from cur s) ->
  forall c, In c line -> is_linebreak c = false.
Proof.
  remember (List.length s) as n eqn:Hn.
  assert (Hle : List.length s <= n) by lia; clear Hn.
  revert s cur Hle; induction n as [|n IH]; intros s cur Hle Hcur.
  - destruct s; [|simpl in Hle; lia]; simpl.
    destruct cur as [|x cur]; [intros []|].
    intros [<-|[]] c Hc; apply Hcur, in_rev; exact Hc.
  - assert (Hrev : forall c, In c (rev cur) -> is_linebreak c = false)
      by (intros c Hc; apply Hcur, in_rev; exact Hc).
    assert (Hnil : forall c : N, In c [] -> is_linebreak c = false)
      by (intros c []).
    destruct s as [|d s]; cbn [splitlines_from].
    + destruct cur as [|x cur]; [intros []|].
      intros [<-|[]]; exact Hrev.
    + simpl in Hle.
      destruct (d =? 13)%N.
      * destruct s as [|d' s'].
        -- intros [<-|[]]; exact Hrev.
        -- simpl in Hle.
           destruct (d' =? 10)%N; intros [<-|Hl]; try exact Hrev.
           ++ apply (IH s' []); [lia | exact Hnil | exact Hl].
           ++ apply (IH (d' :: s') []); [simpl; lia | exact Hnil | exact Hl].
      * destruct (is_linebreak d) eqn:Hd.
        -- intros [<-|Hl]; [exact Hrev|].
           apply (IH s []); [lia | exact Hnil | exact Hl].
        -- apply IH; [lia|].
           intros c [<-|Hc]; [exact Hd | exact (Hcur c Hc)].
Qed.

(** Each copyright line [ReuseDep5.reuse_info_of] returns is a string
    without a line break in it and without white space at its ends. *)
Theorem ReuseDep5_copyright_lines_clean `{Environment}
  (self : ReuseDep5.t) (path : str) (info : ReuseInfo.t) :
  ReuseDep5.reuse_info_of self path = Ok info ->
  forall v, In v (ReuseInfo.copyright_lines info) ->
  exists s,
    v = PStr s /\ stripped s /\ forall c, In c s -> is_linebreak c = false.
Proof.
  unfold ReuseDep5.reuse_info_of.
  destruct (Debian.find_files_paragraph (ReuseDep5.dep5_copyright self)
                                        (as_posix path)) as [row|].
  - intros E.
    destruct (set_of_strs (map strip (splitlines (Debian.copyright row))))
      as [s [Es [_ Hs]]].
    rewrite map_map in Es.
    step E parsed Hp; step E spdx Hx; rewrite Es in E; cbn [bind] in E.
    injection E as <-; simpl.
    intros v Hv; apply Hs in Hv; destruct Hv as [x [Hx' ->]].
    apply in_map_iff in Hx'; destruct Hx' as [line [<- Hl]].
    exists (strip line); repeat split; try apply strip_stripped.
    intros c Hc; apply strip_incl in Hc.
    apply (@splitlines_from_no_break (Debian.copyright row) [] line);
      auto; intros c' [].
  - intros E; injection E as <-; intros v [].
Qed.

Lemma ReuseDep5_copyright_lines_clean_witness :
  exists s,
    @PStr Sample.expr_lib (py "2021 John Roe") = PStr s /\ stripped s
    /\ forall c, In c s -> is_linebreak c = false.
Proof.
  apply (@ReuseDep5_copyright_lines_clean _ Sample.env
           (ReuseDep5.make (py ".reuse/dep5") Sample.table) (py "src/a.c")
           _ eq_refl).
  right; left; reflexivity.
Defined.

(** Splitting and joining paths. *)

Lemma split_on_no_sep (s cur : str) :
  no_slash s -> split_on 47 cur s = [rev cur ++ s].
Proof.
  revert cur; induction s as [|c s IH]; intros cur Hs; simpl.
  - rewrite app_nil_r; reflexivity.
  - destruct (c =? 47)%N eqn:Ec.
    + apply N.eqb_eq in Ec; exfalso; exact (Hs c (or_introl eq_refl) Ec).
    + rewrite IH; [|intros x Hx; apply Hs; right; exact Hx].
      simpl; rewrite <- app_assoc; reflexivity.
Qed.

Lemma split_on_sep (s t cur : str) :
  no_slash s ->
  split_on 47 cur (s ++ 47%N :: t) = (rev cur ++ s) :: split_on 47 [] t.
Proof.
  revert cur; induction s as [|c s IH]; intros cur Hs; simpl.
  - rewrite app_nil_r; reflexivity.
  - destruct (c =? 47)%N eqn:Ec.
    + apply N.eqb_eq in Ec; exfalso; exact (Hs c (or_introl eq_refl) Ec).
    + rewrite IH; [|intros x Hx; apply Hs; right; exact Hx].
      simpl; rewrite <- app_assoc; reflexivity.
Qed.

Lemma split_on_parts (s cur part : str) :
  no_slash cur -> In part (split_on 47 cur s) -> no_slash part.
Proof.
  revert cur; induction s as [|c s IH]; intros cur Hcur; simpl.
  - intros [<-|[]] x Hx; apply Hcur, in_rev; exact Hx.
  - destruct (c =? 47)%N eqn:Ec.
    + intros [<-|Hp]; [intros x Hx; apply Hcur, in_rev; exact Hx|].
      apply (IH []); [intros x []| exact Hp].
    + apply IH; intros x [<-|Hx]; [|apply Hcur; exact Hx].
      intros ->; discriminate Ec.
Qed.

(** The components [as_posix] keeps: free of "/", not empty, not ".". *)
Lemma as_posix_parts (p x : str) :
  In x (filter (fun x => negb (str_eqb x []) && negb (str_eqb x [46%N]))
               (split_slash p)) ->
  no_slash x /\ negb (str_eqb x []) && negb (str_eqb x [46%N]) = true.
Proof.
  intros Hx; apply filter_In in Hx; destruct Hx as [Hx Hok]; split; auto.
  apply (@split_on_parts p [] x); [intros c []| exact Hx].
Qed.

Lemma join_slash_split (parts : list str) :
  (forall x, In x parts -> no_slash x) -> parts <> [] ->
  split_slash (join_slash parts) = parts.
Proof.
  unfold split_slash; induction parts as [|p ps IH]; [congruence|].
  intros Hns _; destruct ps as [|p' ps].
  - simpl; rewrite split_on_no_sep; [reflexivity | apply Hns; left; auto].
  - change (join_slash (p :: p' :: ps))
      with (p ++ 47%N :: join_slash (p' :: ps)).
    rewrite split_on_sep; [|apply Hns; left; auto].
    simpl rev; cbn [app]; f_equal.
    apply IH; [intros x Hx; apply Hns; right; exact Hx | discriminate].
Qed.

Lemma join_slash_head (parts : list str) :
  (forall x, In x parts ->
     no_slash x /\ negb (str_eqb x []) && negb (str_eqb x [46%N]) = true) ->
  parts <> [] ->
  exists c r, join_slash parts = c :: r /\ c <> 47%N.
Proof.
  destruct parts as [|p ps]; [congruence|]; intros Hc _.
  destruct (Hc p (or_introl eq_refl)) as [Hns Hok].
  destruct p as [|c p]; [discriminate Hok|].
  exists c; destruct ps; simpl; eexists; split; try reflexivity;
    apply Hns; left; reflexivity.
Qed.

(** [as_posix] leaves a path it has returned as it is. *)
Lemma as_posix_idempotent (path : str) :
  as_posix (as_posix path) = as_posix path.
Proof.
  unfold as_posix at 2 3.
  pose proof (as_posix_parts path) as Hparts.
  set (parts := filter (fun x => negb (str_eqb x []) && negb (str_eqb x [46%N]))
                       (split_slash path)) in *.
  assert (Hf : filter (fun x => negb (str_eqb x []) && negb (str_eqb x [46%N]))
                      parts = parts).
  { clearbody parts; induction parts as [|x ps IH]; [reflexivity|]; simpl.
    rewrite (proj2 (Hparts x (or_introl eq_refl))); f_equal.
    apply IH; intros y Hy; apply Hparts; right; exact Hy. }
  clearbody parts.
  destruct parts as [|p ps].
  - simpl; destruct (leading_slashes path) as [|[|[|n]]]; reflexivity.
  - assert (Hne : p :: ps <> []) by discriminate.
    destruct (join_slash_head Hparts Hne) as [c [r [Hj Hc]]].
    assert (Hs : split_slash (join_slash (p :: ps)) = p :: ps)
      by (apply join_slash_split; [intros x Hx; apply Hparts, Hx | exact Hne]).
    assert (Hc' : (c =? 47)%N = false) by (apply N.eqb_neq; exact Hc).
    remember (join_slash (p :: ps)) as j eqn:Ej.
    assert (Hroot : forall root,
               root = [] \/ root = [47%N] \/ root = [47%N; 47%N] ->
               as_posix (root ++ j) = root ++ j).
    { intros root Hr; unfold as_posix.
      assert (Hsp : filter
                      (fun x => negb (str_eqb x []) && negb (str_eqb x [46%N]))
                      (split_slash (root ++ j)) = p :: ps).
      { unfold split_slash in *.
        destruct Hr as [->|[->| ->]]; simpl; rewrite Hs; exact Hf. }
      rewrite Hsp.
      assert (Hl : leading_slashes (root ++ j) = List.length root).
      { rewrite Hj; destruct Hr as [->|[->| ->]]; simpl; rewrite Hc';
          reflexivity. }
      rewrite Hl, <- Ej.
      destruct Hr as [->|[->| ->]]; simpl List.length; cbv iota;
        try rewrite Hj; reflexivity. }
    assert (Hout : forall root,
               match root ++ j with
               | [] => [46%N]
               | x :: l => x :: l
               end = root ++ j).
    { intros root; rewrite Hj; destruct root; reflexivity. }
    rewrite Hout; apply Hroot.
    destruct (leading_slashes path) as [|[|[|n]]]; auto.
Qed.

(** [ReuseDep5] takes a path and its posix form for one: "./src//a.c" and
    "src/a.c" have the same [reuse_info_of], and the same [from_file]. *)
Theorem ReuseDep5_reuse_info_of_normalized `{Environment}
  (self : ReuseDep5.t) (path : str) :
  ReuseDep5.reuse_info_of self (as_posix path)
  = ReuseDep5.reuse_info_of self path
  /\ ReuseDep5.from_file (as_posix path) = ReuseDep5.from_file path.
Proof.
  unfold ReuseDep5.reuse_info_of, ReuseDep5.from_file.
  rewrite as_posix_idempotent; split; reflexivity.
Qed.
